(** * Resource handlers of the AWS provider: a shallow embedding

    The handlers under [src/] are translated function by function.  A cloud
    API call is modelled by the answer it gives: every handler takes a
    connection record whose fields are the answers of the remote service to
    the requests the handler sends.  Local state ([schema.ResourceData]) is
    an identifier plus a finite map of attributes, threaded explicitly. *)

From stdpp Require Import gmap strings list fin_maps.
From Stdlib Require Import String.

Open Scope string_scope.

(** ** Errors *)

(** Go [error] values as the handlers see them: a coded AWS API error, the
    poller's three failure classes, a plain message, and [fmt.Errorf]
    wrapping with [%w] (which keeps the cause reachable by [errors.As]) or
    with [%s] (which flattens it to text). *)
#[warnings="-register-all"] Inductive error : Type :=
| AwsError (code message : string)
| NotFoundError
| UnexpectedStateError (LastError : option error) (State : string)
                       (ExpectedState : list string)
| TimeoutError (LastError : option error) (LastState : string)
               (ExpectedState : list string)
| ErrorsNew (message : string)
| Wrapf (context : string) (cause : error)
| Flatf (context : string) (cause : error).

(** [strings.Contains]. *)
Fixpoint strings_Contains (s substr : string) : bool :=
  String.prefix substr s ||
  match s with
  | EmptyString => false
  | String _ s' => strings_Contains s' substr
  end.

(** [errors.As] towards an AWS error: follows [%w] wrappers only. *)
Fixpoint asAwsError (e : error) : option (string * string) :=
  match e with
  | AwsError c m => Some (c, m)
  | Wrapf _ e' => asAwsError e'
  | _ => None
  end.

Module tfawserr.

  (** [tfawserr.ErrMessageContains(err, code, message)]; [err] may be nil. *)
Definition ErrMessageContains (err : option error) (code message : string)
    : bool :=
    match err with
    | None => false
    | Some e =>
        match asAwsError e with
        | Some (c, m) => String.eqb c code && strings_Contains m message
        | None => false
        end
    end.

  (** [tfawserr.ErrCodeEquals(err, code)]. *)
Definition ErrCodeEquals (err : option error) (code : string) : bool :=
    match err with
    | None => false
    | Some e =>
        match asAwsError e with
        | Some (c, _) => String.eqb c code
        | None => false
        end
    end.

End tfawserr.

(** ** The lifecycle poller *)

Module resource.

  (** What one invocation of a [StateRefreshFunc] returns:
      [(interface{}, string, error)]. *)
Definition RefreshResult (A : Type) : Type :=
    (option A * string * option error)%type.

  (** [resource.StateChangeConf].  The refresh function is indexed by the
      number of earlier invocations, so that the remote side may answer
      differently on successive calls.  [Timeout] counts the polls that fit
      before the deadline; [Delay] is the wait before the first poll, in
      seconds. *)
Record StateChangeConf (A : Type) : Type := {
    Pending : list string;
    Target : list string;
    Refresh : nat -> RefreshResult A;
    Timeout : nat;
    Delay : nat
  }.
Arguments Pending {A} _.
Arguments Target {A} _.
Arguments Refresh {A} _.
Arguments Timeout {A} _.
Arguments Delay {A} _.

  (** Outcome of a wait: the value handed back, the error (nil on success)
      and the number of refresh invocations made. *)
Record WaitResult (A : Type) : Type := {
    Output : option A;
    Err : option error;
    Calls : nat
  }.
Arguments Output {A} _.
Arguments Err {A} _.
Arguments Calls {A} _.

Definition inStates (s : string) (l : list string) : bool :=
    existsb (String.eqb s) l.

Section Poller.
Context {A : Type}.

    (** Number of consecutive absent observations tolerated while a target
        state is awaited, before absence is surfaced as a failure. *)
Variable NotFoundChecks : nat.

    (** Modelled from the spec: the polling loop of
        [StateChangeConf.WaitForState], which belongs to the plugin SDK and
        is not under [src/].  On each tick the refresh function is invoked.
        An error aborts and is propagated.  An absent resource is success
        when the target set is empty; otherwise it is retried and, past the
        tolerated number of absent observations, surfaced as a not-found
        failure.  A status in the target set is success, a status in the
        pending set continues, any other status is a hard failure; the
        hard failure hands back the resource it observed.  The loop keeps
        the result and the status of its last poll.  When no tick is left
        the wait fails with a timeout error; on this point the model
        follows the loop of the SDK and not the spec's sentence on
        timeouts: the error names the status of the last poll, and no
        resource is handed back (the result kept from the last poll is
        dropped). *)
Fixpoint poll (conf : StateChangeConf A) (fuel n notfound : nat)
             (last : option A) (lastState : string) : WaitResult A :=
      match fuel with
      | O =>
          {| Output := None;
             Err := Some (TimeoutError None lastState (Target conf));
             Calls := n |}
      | S fuel' =>
          let '(res, currentState, err) := Refresh conf n in
          match err with
          | Some e => {| Output := res; Err := Some e; Calls := S n |}
          | None =>
              match res with
              | None =>
                  match Target conf with
                  | [] => {| Output := None; Err := None; Calls := S n |}
                  | _ :: _ =>
                      if Nat.ltb NotFoundChecks (S notfound)
                      then {| Output := None; Err := Some NotFoundError;
                              Calls := S n |}
                      else poll conf fuel' (S n) (S notfound) None currentState
                  end
              | Some r =>
                  if inStates currentState (Target conf)
                  then {| Output := Some r; Err := None; Calls := S n |}
                  else if inStates currentState (Pending conf)
                  then poll conf fuel' (S n) 0 (Some r) currentState
                  else {| Output := Some r;
                          Err := Some (UnexpectedStateError None currentState
                                         (Target conf));
                          Calls := S n |}
              end
          end
      end.

Definition WaitForState (conf : StateChangeConf A) : WaitResult A :=
      poll conf (Timeout conf) 0 0 None "".

End Poller.

(** [resource.RetryError], built by [RetryableError] and
    [NonRetryableError]. *)
Inductive RetryError : Type :=
| RetryableError (err : error)
| NonRetryableError (err : error).

Section Retrying.
Context {A : Type}.

(** Modelled from the spec: [resource.Retry] of the plugin SDK, not under
    [src/]: a bounded number of attempts.  The function is invoked; success
    and a non-retryable error end the loop at once, the error being
    returned as it is; a retryable error leads to one more attempt while
    the window lasts.  Once the window has elapsed the result is, as in
    the SDK, the error of the last attempt that was retried; only when the
    window elapsed before any attempt gave its verdict is the result a
    timeout error.  The window is counted in attempts.  The function
    receives the number of earlier attempts and yields, besides its
    verdict, the value the Go closure assigns to a captured variable; the
    value assigned last is handed back together with the number of
    attempts made. *)
Fixpoint retry (f : nat -> A * option RetryError) (fuel n : nat) (last : A)
         (resultErr : option error) : A * option error * nat :=
  match fuel with
  | O =>
      match resultErr with
      | Some err => (last, Some err, n)
      | None => (last, Some (TimeoutError None "" []), n)
      end
  | S fuel' =>
      let '(out, verdict) := f n in
      match verdict with
      | None => (out, None, S n)
      | Some (NonRetryableError err) => (out, Some err, S n)
      | Some (RetryableError err) => retry f fuel' (S n) out (Some err)
      end
  end.

Definition Retry (timeout : nat) (f : nat -> A * option RetryError)
           (init : A) : A * option error * nat :=
  retry f timeout 0 init None.

End Retrying.

End resource.

Module tfresource.

  (** Modelled from the spec: [tfresource.SetLastError] of
      [internal/tfresource], not under [src/]: the richer failure detail
      becomes the reported cause of a timeout or unexpected-state error that
      has no cause yet; any other error (and nil) is left as it is.  The Go
      function updates the error in place; here the updated error is
      returned. *)
Definition SetLastError (err : option error) (lastErr : error)
    : option error :=
    match err with
    | Some (TimeoutError None st exp) => Some (TimeoutError (Some lastErr) st exp)
    | Some (UnexpectedStateError None st exp) =>
        Some (UnexpectedStateError (Some lastErr) st exp)
    | _ => err
    end.

(** [errors.As] towards the poller's not-found error, through [%w]. *)
Fixpoint asNotFound (e : error) : bool :=
  match e with
  | NotFoundError => true
  | Wrapf _ e' => asNotFound e'
  | _ => false
  end.

(** Modelled from the spec: [tfresource.NotFound] of [internal/tfresource],
    not under [src/]: the error is of the not-found class. *)
Definition NotFound (err : option error) : bool :=
  match err with
  | Some e => asNotFound e
  | None => false
  end.

(** Modelled from the spec: [tfresource.TimedOut] of [internal/tfresource],
    not under [src/]: the error is the timeout of a wait or retry window. *)
Definition TimedOut (err : option error) : bool :=
  match err with
  | Some (TimeoutError _ _ _) => true
  | _ => false
  end.

End tfresource.

(** [aws.StringValue]: the pointed-to string, or the empty string for nil. *)
Definition aws_StringValue (p : option string) : string :=
  match p with Some s => s | None => "" end.

(** ** FSx file system waiters *)

Module fsx.

  (** Constants of the FSx service API. *)
Definition ErrCodeFileSystemNotFound := "FileSystemNotFound".
Definition FileSystemLifecycleAvailable := "AVAILABLE".
Definition FileSystemLifecycleCreating := "CREATING".
Definition FileSystemLifecycleDeleting := "DELETING".
Definition StatusInProgress := "IN_PROGRESS".
Definition StatusPending := "PENDING".
Definition StatusCompleted := "COMPLETED".
Definition StatusUpdatedOptimizing := "UPDATED_OPTIMIZING".

Record FileSystemFailureDetails : Type := {
    Message : option string
  }.

Record AdministrativeAction : Type := {
    AdministrativeActionType : option string;
    Status : option string
  }.

Record FileSystem : Type := {
    FileSystemId : option string;
    Lifecycle : option string;
    FailureDetails : option FileSystemFailureDetails;
    AdministrativeActions : list (option AdministrativeAction)
  }.

  (** One answer of [DescribeFileSystemsPages]: the pages delivered to the
      callback, and the error returned once they are consumed (nil when the
      last page was reached). *)
Record DescribeFileSystemsAnswer : Type := {
    pages : list (list FileSystem);
    pagesErr : option error
  }.

  (** The connection: the answer to the n-th describe request for an id. *)
Definition FSx : Type := string -> nat -> DescribeFileSystemsAnswer.

Definition findInPage (id : string) (page : list FileSystem)
    : option FileSystem :=
    List.find (fun fs => String.eqb (aws_StringValue (FileSystemId fs)) id) page.

  (** The page callback of [describeFsxFileSystem]: paging stops at the first
      page holding the id, so a later error is never reached. *)
Fixpoint scanPages (id : string) (ps : list (list FileSystem))
           (err : option error) : option FileSystem * option error :=
    match ps with
    | [] => (None, err)
    | page :: rest =>
        match findInPage id page with
        | Some fs => (Some fs, None)
        | None => scanPages id rest err
        end
    end.

Definition describeFsxFileSystem (conn : FSx) (id : string) (n : nat)
    : option FileSystem * option error :=
    let a := conn id n in scanPages id (pages a) (pagesErr a).

Definition refreshFsxFileSystemLifecycle (conn : FSx) (id : string)
    : nat -> resource.RefreshResult FileSystem :=
    fun n =>
      let '(filesystem, err) := describeFsxFileSystem conn id n in
      if tfawserr.ErrMessageContains err ErrCodeFileSystemNotFound ""
      then (None, "", None)
      else match err with
           | Some e => (None, "", Some e)
           | None =>
               match filesystem with
               | None => (None, "", None)
               | Some fs => (Some fs, aws_StringValue (Lifecycle fs), None)
               end
           end.

  (** The loop over [filesystem.AdministrativeActions]. *)
Fixpoint findActionStatus (action : string)
           (l : list (option AdministrativeAction)) : option string :=
    match l with
    | [] => None
    | None :: rest => findActionStatus action rest
    | Some a :: rest =>
        if String.eqb (aws_StringValue (AdministrativeActionType a)) action
        then Some (aws_StringValue (Status a))
        else findActionStatus action rest
    end.

Definition refreshFsxFileSystemAdministrativeActionsStatusFileSystemUpdate
             (conn : FSx) (id action : string)
    : nat -> resource.RefreshResult FileSystem :=
    fun n =>
      let '(filesystem, err) := describeFsxFileSystem conn id n in
      if tfawserr.ErrMessageContains err ErrCodeFileSystemNotFound ""
      then (None, "", None)
      else match err with
           | Some e => (None, "", Some e)
           | None =>
               match filesystem with
               | None => (None, "", None)
               | Some fs =>
                   match findActionStatus action (AdministrativeActions fs) with
                   | Some st => (Some fs, st, None)
                   | None => (Some fs, StatusCompleted, None)
                   end
               end
           end.

Section Waiters.
Variable NotFoundChecks : nat.

    (** The tail shared by the creation and deletion waiters: a failure
        detail on the handed-back file system becomes the error's cause. *)
Definition withFailureDetails (w : resource.WaitResult FileSystem)
      : option error :=
      match resource.Output w with
      | Some output =>
          match FailureDetails output with
          | Some fd =>
              tfresource.SetLastError (resource.Err w)
                (ErrorsNew (aws_StringValue (Message fd)))
          | None => resource.Err w
          end
      | None => resource.Err w
      end.

Definition creationConf (conn : FSx) (id : string) (timeout : nat)
      : resource.StateChangeConf FileSystem :=
      {| resource.Pending := [FileSystemLifecycleCreating];
         resource.Target := [FileSystemLifecycleAvailable];
         resource.Refresh := refreshFsxFileSystemLifecycle conn id;
         resource.Timeout := timeout;
         resource.Delay := 30 |}.

Definition waitForFsxFileSystemCreation (conn : FSx) (id : string)
               (timeout : nat) : option error :=
      withFailureDetails
        (resource.WaitForState NotFoundChecks (creationConf conn id timeout)).

Definition deletionConf (conn : FSx) (id : string) (timeout : nat)
      : resource.StateChangeConf FileSystem :=
      {| resource.Pending :=
           [FileSystemLifecycleAvailable; FileSystemLifecycleDeleting];
         resource.Target := [];
         resource.Refresh := refreshFsxFileSystemLifecycle conn id;
         resource.Timeout := timeout;
         resource.Delay := 30 |}.

Definition waitForFsxFileSystemDeletion (conn : FSx) (id : string)
               (timeout : nat) : option error :=
      withFailureDetails
        (resource.WaitForState NotFoundChecks (deletionConf conn id timeout)).



Definition administrativeActionConf (conn : FSx) (id action : string)
               (timeout : nat) : resource.StateChangeConf FileSystem :=
      {| resource.Pending := [StatusInProgress; StatusPending];
         resource.Target := [StatusCompleted; StatusUpdatedOptimizing];
         resource.Refresh :=
           refreshFsxFileSystemAdministrativeActionsStatusFileSystemUpdate
             conn id action;
         resource.Timeout := timeout;
         resource.Delay := 30 |}.

Definition waitForFsxFileSystemUpdateAdministrativeActionsStatusFileSystemUpdate
               (conn : FSx) (id action : string) (timeout : nat)
      : option error :=
      resource.Err
        (resource.WaitForState NotFoundChecks
           (administrativeActionConf conn id action timeout)).

End Waiters.

End fsx.

(** ** Local state: [schema.ResourceData] *)

(** Values an attribute can hold: a string, a bool, a map of strings (tags),
    or a list of nested blocks whose fields are strings. *)
Inductive Value : Type :=
| VString (s : string)
| VBool (b : bool)
| VMap (m : gmap string string)
| VList (l : list (gmap string string)).

#[global] Instance Value_eq_dec : EqDecision Value.
Proof. solve_decision. Defined.

(** Answer of an API call that returns [(output, err)]. *)
Inductive Result (A : Type) : Type :=
| Ok (output : A)
| Fail (err : error).
Arguments Ok {A} _.
Arguments Fail {A} _.

Module schema.

(** The identifier, the attributes as [d.Get] sees them, the attributes of
    the prior state (what [d.HasChange] compares against), and whether the
    resource is being created by this very operation. *)
Record ResourceData : Type := {
  id : string;
  attrs : gmap string Value;
  prior : gmap string Value;
  isNew : bool
}.

Definition Id (d : ResourceData) : string := id d.

Definition SetId (d : ResourceData) (v : string) : ResourceData :=
  {| id := v; attrs := attrs d; prior := prior d; isNew := isNew d |}.

Definition IsNewResource (d : ResourceData) : bool := isNew d.

(** [d.Set(key, value)]; a nil pointer unsets the attribute, which then
    reads as the zero value. *)
Definition Set_ (d : ResourceData) (key : string) (v : option Value)
  : ResourceData :=
  {| id := id d;
     attrs := match v with
              | Some x => <[key := x]> (attrs d)
              | None => delete key (attrs d)
              end;
     prior := prior d;
     isNew := isNew d |}.

Definition SetString (d : ResourceData) (key : string) (v : option string)
  : ResourceData := Set_ d key (VString <$> v).

Definition SetBool (d : ResourceData) (key : string) (v : option bool)
  : ResourceData := Set_ d key (VBool <$> v).

(** [d.Get(key).(string)]: the zero value when unset. *)
Definition GetString (d : ResourceData) (key : string) : string :=
  match attrs d !! key with Some (VString s) => s | _ => "" end.

Definition GetBool (d : ResourceData) (key : string) : bool :=
  match attrs d !! key with Some (VBool b) => b | _ => false end.

Definition GetMap (d : ResourceData) (key : string) : gmap string string :=
  match attrs d !! key with Some (VMap m) => m | _ => ∅ end.

Definition GetList (d : ResourceData) (key : string)
  : list (gmap string string) :=
  match attrs d !! key with Some (VList l) => l | _ => [] end.

(** [d.GetOk(key)] on a string attribute: ok only for a non-zero value. *)
Definition GetOkString (d : ResourceData) (key : string) : option string :=
  let v := GetString d key in
  if String.eqb v "" then None else Some v.

(** [d.GetChange(key)] and [d.HasChange(key)]. *)
Definition GetChange (d : ResourceData) (key : string)
  : option Value * option Value := (prior d !! key, attrs d !! key).

Definition HasChange (d : ResourceData) (key : string) : bool :=
  bool_decide (prior d !! key ≠ attrs d !! key).

End schema.

(** ** The provider client *)

Module client.

(** [client.AWSClient]: the account, partition and region, and the tag
    configuration.  The tag helpers of [internal/keyvaluetags] are not under
    [src/]; the two compositions the handlers apply are carried here:
    [IgnoreTags] is [IgnoreAws().IgnoreConfig(IgnoreTagsConfig)] and
    [RemoveDefaultTags] is [RemoveDefaultConfig(DefaultTagsConfig)]. *)
Record AWSClient : Type := {
  AccountID : string;
  Partition : string;
  Region : string;
  IgnoreTags : gmap string string -> gmap string string;
  RemoveDefaultTags : gmap string string -> gmap string string;
  MergeDefaultTags : gmap string string -> gmap string string
}.

End client.

(** [arn.ARN{...}.String()]. *)
Definition arn_String (partition service region account res : string)
  : string :=
  "arn:" ++ partition ++ ":" ++ service ++ ":" ++ region ++ ":" ++ account
         ++ ":" ++ res.

(** What a handler leaves behind: the local state and the returned error. *)
Definition Outcome : Type := (schema.ResourceData * option error)%type.

(** ** DAX parameter group *)

Module dax.

Definition ErrCodeParameterGroupNotFoundFault := "ParameterGroupNotFoundFault".

Record ParameterGroup : Type := {
  ParameterGroupName : option string;
  Description : option string
}.

(** [dax.Parameter] (the name is a reserved word here). *)
Record DaxParameter : Type := {
  ParameterName : option string;
  ParameterValue : option string
}.

Record CreateParameterGroupInput : Type := {
  cpgName : option string;
  cpgDescription : option string
}.

Record UpdateParameterGroupInput : Type := {
  upgName : option string;
  upgParameterNameValues : list DaxParameter
}.

Record DAX : Type := {
  CreateParameterGroup : CreateParameterGroupInput -> option error;
  DescribeParameterGroups : string -> Result (list ParameterGroup);
  DescribeParameters : string -> Result (list DaxParameter);
  UpdateParameterGroup : UpdateParameterGroupInput -> option error;
  DeleteParameterGroup : string -> option error
}.

Section Handlers.

(** The two structure helpers of the package, which are not under [src/]. *)
Variable flattenParameterGroupParameters
  : list DaxParameter -> list (gmap string string).
Variable expandParameterGroupParameterNameValue
  : list (gmap string string) -> list DaxParameter.

(** The description as [Read] stores it: the default description is [" "]. *)
Definition normalizeDescription (desc : option string) : option string :=
  match desc with
  | Some s => if String.eqb s " " then Some "" else Some s
  | None => None
  end.

Definition resourceAwsDaxParameterGroupRead (conn : DAX)
           (d : schema.ResourceData) : Outcome :=
  match DescribeParameterGroups conn (schema.Id d) with
  | Fail err =>
      if tfawserr.ErrMessageContains (Some err)
           ErrCodeParameterGroupNotFoundFault ""
      then (schema.SetId d "", None)
      else (d, Some err)
  | Ok groups =>
      match groups with
      | [] => (schema.SetId d "", None)
      | pg :: _ =>
          match DescribeParameters conn (schema.Id d) with
          | Fail err =>
              if tfawserr.ErrMessageContains (Some err)
                   ErrCodeParameterGroupNotFoundFault ""
              then (schema.SetId d "", None)
              else (d, Some err)
          | Ok params =>
              let d := schema.SetString d "name" (ParameterGroupName pg) in
              let desc := normalizeDescription (Description pg) in
              let d := schema.SetString d "description" desc in
              let d := schema.Set_ d "parameters"
                         (Some (VList (flattenParameterGroupParameters params)))
              in (d, None)
          end
      end
  end.

Definition updateParameterGroupInput (d : schema.ResourceData)
  : UpdateParameterGroupInput :=
  {| upgName := Some (schema.Id d);
     upgParameterNameValues :=
       if schema.HasChange d "parameters"
       then expandParameterGroupParameterNameValue
              (schema.GetList d "parameters")
       else [] |}.

Definition resourceAwsDaxParameterGroupUpdate (conn : DAX)
           (d : schema.ResourceData) : Outcome :=
  match UpdateParameterGroup conn (updateParameterGroupInput d) with
  | Some err => (d, Some err)
  | None => resourceAwsDaxParameterGroupRead conn d
  end.

Definition createParameterGroupInput (d : schema.ResourceData)
  : CreateParameterGroupInput :=
  {| cpgName := Some (schema.GetString d "name");
     cpgDescription := schema.GetOkString d "description" |}.

Definition resourceAwsDaxParameterGroupCreate (conn : DAX)
           (d : schema.ResourceData) : Outcome :=
  match CreateParameterGroup conn (createParameterGroupInput d) with
  | Some err => (d, Some err)
  | None =>
      let d := schema.SetId d (schema.GetString d "name") in
      if Nat.ltb 0 (List.length (schema.GetList d "parameters"))
      then resourceAwsDaxParameterGroupUpdate conn d
      else resourceAwsDaxParameterGroupRead conn d
  end.

Definition resourceAwsDaxParameterGroupDelete (conn : DAX)
           (d : schema.ResourceData) : Outcome :=
  match DeleteParameterGroup conn (schema.Id d) with
  | Some err =>
      if tfawserr.ErrMessageContains (Some err)
           ErrCodeParameterGroupNotFoundFault ""
      then (d, None)
      else (d, Some err)
  | None => (d, None)
  end.

End Handlers.

End dax.

(** ** Security Hub organization configuration *)

Module securityhub.

Record DescribeOrganizationConfigurationOutput : Type := {
  AutoEnable : option bool
}.

Record SecurityHub : Type := {
  UpdateOrganizationConfiguration : bool -> option error;
  DescribeOrganizationConfiguration
    : Result DescribeOrganizationConfigurationOutput
}.

Definition resourceAwsSecurityHubOrganizationConfigurationRead
           (conn : SecurityHub) (d : schema.ResourceData) : Outcome :=
  match DescribeOrganizationConfiguration conn with
  | Fail err =>
      (d, Some (Wrapf
                  "error reading Security Hub Organization Configuration" err))
  | Ok output => (schema.SetBool d "auto_enable" (AutoEnable output), None)
  end.

Definition resourceAwsSecurityHubOrganizationConfigurationUpdate
           (conn : SecurityHub) (meta : client.AWSClient)
           (d : schema.ResourceData) : Outcome :=
  match UpdateOrganizationConfiguration conn
          (schema.GetBool d "auto_enable") with
  | Some err =>
      (d, Some (Wrapf
                  "error updating Security Hub Organization Configuration" err))
  | None =>
      let d := schema.SetId d (client.AccountID meta) in
      resourceAwsSecurityHubOrganizationConfigurationRead conn d
  end.

End securityhub.

(** ** SES active receipt rule set *)

Module ses.

Definition ErrCodeRuleSetDoesNotExistException := "RuleSetDoesNotExist".

Record ReceiptRuleSetMetadata : Type := {
  Name : option string
}.

Record DescribeActiveReceiptRuleSetOutput : Type := {
  Metadata : option ReceiptRuleSetMetadata
}.

Record SES : Type := {
  SetActiveReceiptRuleSet : option string -> option error;
  DescribeActiveReceiptRuleSet : Result DescribeActiveReceiptRuleSetOutput
}.

Definition resourceAwsSesActiveReceiptRuleSetRead (conn : SES)
           (meta : client.AWSClient) (d : schema.ResourceData) : Outcome :=
  match DescribeActiveReceiptRuleSet conn with
  | Fail err =>
      if tfawserr.ErrMessageContains (Some err)
           ErrCodeRuleSetDoesNotExistException ""
      then (schema.SetId d "", None)
      else (d, Some err)
  | Ok response =>
      match Metadata response with
      | None => (schema.SetId d "", None)
      | Some metadata =>
          let d := schema.SetString d "rule_set_name" (Name metadata) in
          let arn := arn_String (client.Partition meta) "ses"
                       (client.Region meta) (client.AccountID meta)
                       ("receipt-rule-set/" ++ schema.Id d) in
          (schema.SetString d "arn" (Some arn), None)
      end
  end.

Definition resourceAwsSesActiveReceiptRuleSetUpdate (conn : SES)
           (meta : client.AWSClient) (d : schema.ResourceData) : Outcome :=
  let ruleSetName := schema.GetString d "rule_set_name" in
  match SetActiveReceiptRuleSet conn (Some ruleSetName) with
  | Some err => (d, Some (Flatf "Error setting active SES rule set" err))
  | None =>
      let d := schema.SetId d ruleSetName in
      resourceAwsSesActiveReceiptRuleSetRead conn meta d
  end.

Definition resourceAwsSesActiveReceiptRuleSetDelete (conn : SES)
           (d : schema.ResourceData) : Outcome :=
  match SetActiveReceiptRuleSet conn None with
  | Some err => (d, Some (Flatf "Error deleting active SES rule set" err))
  | None => (d, None)
  end.

End ses.

(** ** EC2: transit gateway peering attachment and carrier gateway *)

Module ec2.

Definition TransitGatewayAttachmentStateDeleting := "deleting".
Definition TransitGatewayAttachmentStateDeleted := "deleted".
Definition CarrierGatewayStateDeleted := "deleted".
Definition ServiceName := "ec2".
Definition errCodeInvalidCarrierGatewayIDNotFound :=
  "InvalidCarrierGatewayID.NotFound".

Record PeeringTgwInfo : Type := {
  OwnerId : option string;
  PeerRegion : option string;
  TransitGatewayId : option string
}.

(** [ec2.TransitGatewayPeeringAttachment]; Read dereferences the accepter
    and requester information without a nil check, so an attachment is taken
    to carry both. *)
Record TransitGatewayPeeringAttachment : Type := {
  AccepterTgwInfo : PeeringTgwInfo;
  RequesterTgwInfo : PeeringTgwInfo;
  State : option string;
  Tags : gmap string string;
  TransitGatewayAttachmentId : option string
}.

Record CreateTransitGatewayPeeringAttachmentInput : Type := {
  inPeerAccountId : option string;
  inPeerRegion : option string;
  inPeerTransitGatewayId : option string;
  inTags : gmap string string;
  inTransitGatewayId : option string
}.

Record CarrierGateway : Type := {
  CarrierGatewayId : option string;
  cgOwnerId : option string;
  cgState : option string;
  cgTags : gmap string string;
  VpcId : option string
}.

(** The connection.  Besides the service calls it answers for the helpers of
    the package that are not under [src/] and only forward to the service:
    the describe and find helpers, the waiters and the tag update. *)
Record EC2 : Type := {
  CreateTransitGatewayPeeringAttachment
    : CreateTransitGatewayPeeringAttachmentInput ->
      Result TransitGatewayPeeringAttachment;
  ec2DescribeTransitGatewayPeeringAttachment
    : string -> option TransitGatewayPeeringAttachment * option error;
  DeleteTransitGatewayPeeringAttachment : string -> option error;
  waitForEc2TransitGatewayPeeringAttachmentCreation : string -> option error;
  waitForEc2TransitGatewayPeeringAttachmentDeletion : string -> option error;
  Ec2UpdateTags : string -> option Value -> option Value -> option error;
  CreateCarrierGateway : gmap string string -> option string ->
                         Result CarrierGateway;
  findCarrierGatewayByID : string -> option CarrierGateway * option error;
  DeleteCarrierGateway : string -> option error;
  waitCarrierGatewayAvailable : string -> option error;
  waitCarrierGatewayDeleted : string -> option error
}.

(** The tail shared by the Read handlers that carry tags. *)
Definition setTags (meta : client.AWSClient) (remote : gmap string string)
           (d : schema.ResourceData) : schema.ResourceData :=
  let tags := client.IgnoreTags meta remote in
  let d := schema.Set_ d "tags"
             (Some (VMap (client.RemoveDefaultTags meta tags))) in
  schema.Set_ d "tags_all" (Some (VMap tags)).

Definition resourceAwsEc2TransitGatewayPeeringAttachmentRead (conn : EC2)
           (meta : client.AWSClient) (d : schema.ResourceData) : Outcome :=
  let '(transitGatewayPeeringAttachment, err) :=
    ec2DescribeTransitGatewayPeeringAttachment conn (schema.Id d) in
  if tfawserr.ErrMessageContains err
       "InvalidTransitGatewayAttachmentID.NotFound" ""
  then (schema.SetId d "", None)
  else
    match err with
    | Some e =>
        (d, Some (Flatf
                    "error reading EC2 Transit Gateway Peering Attachment" e))
    | None =>
        match transitGatewayPeeringAttachment with
        | None => (schema.SetId d "", None)
        | Some a =>
            if String.eqb (aws_StringValue (State a))
                 TransitGatewayAttachmentStateDeleting
               || String.eqb (aws_StringValue (State a))
                    TransitGatewayAttachmentStateDeleted
            then (schema.SetId d "", None)
            else
              let d := schema.SetString d "peer_account_id"
                         (OwnerId (AccepterTgwInfo a)) in
              let d := schema.SetString d "peer_region"
                         (PeerRegion (AccepterTgwInfo a)) in
              let d := schema.SetString d "peer_transit_gateway_id"
                         (TransitGatewayId (AccepterTgwInfo a)) in
              let d := schema.SetString d "transit_gateway_id"
                         (TransitGatewayId (RequesterTgwInfo a)) in
              (setTags meta (Tags a) d, None)
        end
    end.

(** The request Create sends. *)
Definition createTransitGatewayPeeringAttachmentInput
           (meta : client.AWSClient) (d : schema.ResourceData)
  : CreateTransitGatewayPeeringAttachmentInput :=
  let tags := client.MergeDefaultTags meta (schema.GetMap d "tags") in
  let peerAccountId :=
    match schema.GetOkString d "peer_account_id" with
    | Some v => v
    | None => client.AccountID meta
    end in
  {| inPeerAccountId := Some peerAccountId;
     inPeerRegion := Some (schema.GetString d "peer_region");
     inPeerTransitGatewayId :=
       Some (schema.GetString d "peer_transit_gateway_id");
     inTags := tags;
     inTransitGatewayId := Some (schema.GetString d "transit_gateway_id") |}.

Definition resourceAwsEc2TransitGatewayPeeringAttachmentCreate (conn : EC2)
           (meta : client.AWSClient) (d : schema.ResourceData) : Outcome :=
  let input := createTransitGatewayPeeringAttachmentInput meta d in
  match CreateTransitGatewayPeeringAttachment conn input with
  | Fail err =>
      (d, Some (Flatf
                  "error creating EC2 Transit Gateway Peering Attachment" err))
  | Ok output =>
      let d := schema.SetId d
                 (aws_StringValue (TransitGatewayAttachmentId output)) in
      match waitForEc2TransitGatewayPeeringAttachmentCreation conn
              (schema.Id d) with
      | Some err =>
          (d, Some (Flatf
             "error waiting for EC2 Transit Gateway Peering Attachment availability"
             err))
      | None => resourceAwsEc2TransitGatewayPeeringAttachmentRead conn meta d
      end
  end.

Definition resourceAwsEc2TransitGatewayPeeringAttachmentUpdate (conn : EC2)
           (d : schema.ResourceData) : Outcome :=
  if schema.HasChange d "tags_all"
  then
    let '(o, n) := schema.GetChange d "tags_all" in
    match Ec2UpdateTags conn (schema.Id d) o n with
    | Some err =>
        (d, Some (Flatf
           "error updating EC2 Transit Gateway Peering Attachment tags" err))
    | None => (d, None)
    end
  else (d, None).

Definition resourceAwsEc2TransitGatewayPeeringAttachmentDelete (conn : EC2)
           (d : schema.ResourceData) : Outcome :=
  let err := DeleteTransitGatewayPeeringAttachment conn (schema.Id d) in
  if tfawserr.ErrMessageContains err
       "InvalidTransitGatewayAttachmentID.NotFound" ""
  then (d, None)
  else
    match err with
    | Some e =>
        (d, Some (Flatf
                    "error deleting EC2 Transit Gateway Peering Attachment" e))
    | None =>
        match waitForEc2TransitGatewayPeeringAttachmentDeletion conn
                (schema.Id d) with
        | Some e =>
            (d, Some (Flatf
               "error waiting for EC2 Transit Gateway Peering Attachment deletion"
               e))
        | None => (d, None)
        end
    end.

Definition resourceAwsEc2CarrierGatewayRead (conn : EC2)
           (meta : client.AWSClient) (d : schema.ResourceData) : Outcome :=
  let '(carrierGateway, err) := findCarrierGatewayByID conn (schema.Id d) in
  if tfawserr.ErrCodeEquals err errCodeInvalidCarrierGatewayIDNotFound
  then (schema.SetId d "", None)
  else
    match err with
    | Some e => (d, Some (Wrapf "error reading EC2 Carrier Gateway" e))
    | None =>
        match carrierGateway with
        | None => (schema.SetId d "", None)
        | Some g =>
            if String.eqb (aws_StringValue (cgState g))
                 CarrierGatewayStateDeleted
            then (schema.SetId d "", None)
            else
              let arn := arn_String (client.Partition meta) ServiceName
                           (client.Region meta)
                           (aws_StringValue (cgOwnerId g))
                           ("carrier-gateway/" ++ schema.Id d) in
              let d := schema.SetString d "arn" (Some arn) in
              let d := schema.SetString d "owner_id" (cgOwnerId g) in
              let d := schema.SetString d "vpc_id" (VpcId g) in
              (setTags meta (cgTags g) d, None)
        end
    end.

Definition resourceAwsEc2CarrierGatewayCreate (conn : EC2)
           (meta : client.AWSClient) (d : schema.ResourceData) : Outcome :=
  let tags := client.MergeDefaultTags meta (schema.GetMap d "tags") in
  match CreateCarrierGateway conn tags
          (Some (schema.GetString d "vpc_id")) with
  | Fail err => (d, Some (Wrapf "error creating EC2 Carrier Gateway" err))
  | Ok output =>
      let d := schema.SetId d (aws_StringValue (CarrierGatewayId output)) in
      match waitCarrierGatewayAvailable conn (schema.Id d) with
      | Some err =>
          (d, Some (Wrapf
             "error waiting for EC2 Carrier Gateway to become available" err))
      | None => resourceAwsEc2CarrierGatewayRead conn meta d
      end
  end.

Definition resourceAwsEc2CarrierGatewayUpdate (conn : EC2)
           (meta : client.AWSClient) (d : schema.ResourceData) : Outcome :=
  let updated :=
    if schema.HasChange d "tags_all"
    then
      let '(o, n) := schema.GetChange d "tags_all" in
      Ec2UpdateTags conn (schema.Id d) o n
    else None in
  match updated with
  | Some err => (d, Some (Wrapf "error updating EC2 Carrier Gateway tags" err))
  | None => resourceAwsEc2CarrierGatewayRead conn meta d
  end.

Definition resourceAwsEc2CarrierGatewayDelete (conn : EC2)
           (d : schema.ResourceData) : Outcome :=
  let err := DeleteCarrierGateway conn (schema.Id d) in
  if tfawserr.ErrCodeEquals err errCodeInvalidCarrierGatewayIDNotFound
  then (d, None)
  else
    match err with
    | Some e => (d, Some (Wrapf "error deleting EC2 Carrier Gateway" e))
    | None =>
        match waitCarrierGatewayDeleted conn (schema.Id d) with
        | Some e =>
            (d, Some (Wrapf
               "error waiting for EC2 Carrier Gateway to be deleted" e))
        | None => (d, None)
        end
    end.

End ec2.

(** ** GameLift alias *)

Module gamelift.

Definition ErrCodeNotFoundException := "NotFoundException".

Record RoutingStrategy : Type := {
  FleetId : option string;
  Message : option string;
  Type_ : option string
}.

(** [gamelift.Alias]; the handlers dereference the alias of a describe
    answer and the type of its routing strategy without a nil check, so an
    answer is taken to carry both. *)
Record Alias : Type := {
  AliasArn : option string;
  AliasId : option string;
  Description : option string;
  Name : option string;
  aliasRoutingStrategy : option RoutingStrategy
}.

Record CreateAliasInput : Type := {
  caDescription : option string;
  caName : option string;
  caRoutingStrategy : option RoutingStrategy;
  caTags : gmap string string
}.

Record UpdateAliasInput : Type := {
  uaAliasId : option string;
  uaDescription : option string;
  uaName : option string;
  uaRoutingStrategy : option RoutingStrategy
}.

(** The connection; [GameliftListTags] and [GameliftUpdateTags] stand for
    the tag helpers of [internal/keyvaluetags], which forward to the
    service. *)
Record GameLift : Type := {
  CreateAlias : CreateAliasInput -> Result Alias;
  DescribeAlias : string -> Result Alias;
  UpdateAlias : UpdateAliasInput -> option error;
  DeleteAlias : string -> option error;
  GameliftListTags : string -> Result (gmap string string);
  GameliftUpdateTags : string -> option Value -> option Value -> option error
}.

Definition nonEmpty (v : option string) : option string :=
  match v with
  | Some s => if Nat.ltb 0 (String.length s) then Some s else None
  | None => None
  end.

Definition expandGameliftRoutingStrategy (cfg : list (gmap string string))
  : option RoutingStrategy :=
  match cfg with
  | [] => None
  | strategy :: _ =>
      Some {| Type_ := Some (default "" (strategy !! "type"));
              FleetId := nonEmpty (strategy !! "fleet_id");
              Message := nonEmpty (strategy !! "message") |}
  end.

Definition flattenGameliftRoutingStrategy (rs : option RoutingStrategy)
  : list (gmap string string) :=
  match rs with
  | None => []
  | Some rs =>
      let m : gmap string string := ∅ in
      let m := match FleetId rs with
               | Some v => <["fleet_id" := v]> m
               | None => m
               end in
      let m := match Message rs with
               | Some v => <["message" := v]> m
               | None => m
               end in
      [<["type" := aws_StringValue (Type_ rs)]> m]
  end.

Definition resourceAwsGameliftAliasRead (conn : GameLift)
           (meta : client.AWSClient) (d : schema.ResourceData) : Outcome :=
  match DescribeAlias conn (schema.Id d) with
  | Fail err =>
      if tfawserr.ErrMessageContains (Some err) ErrCodeNotFoundException ""
      then (schema.SetId d "", None)
      else (d, Some err)
  | Ok a =>
      let arn := aws_StringValue (AliasArn a) in
      let d := schema.SetString d "arn" (Some arn) in
      let d := schema.SetString d "description" (Description a) in
      let d := schema.SetString d "name" (Name a) in
      let d := schema.Set_ d "routing_strategy"
                 (Some (VList (flattenGameliftRoutingStrategy
                                 (aliasRoutingStrategy a)))) in
      match GameliftListTags conn arn with
      | Fail err =>
          (d, Some (Flatf "error listing tags for Game Lift Alias" err))
      | Ok tags => (ec2.setTags meta tags d, None)
      end
  end.

(** The request Create sends. *)
Definition createAliasInput (meta : client.AWSClient)
           (d : schema.ResourceData) : CreateAliasInput :=
  let tags := client.MergeDefaultTags meta (schema.GetMap d "tags") in
  let rs := expandGameliftRoutingStrategy
              (schema.GetList d "routing_strategy") in
  {| caName := Some (schema.GetString d "name");
     caRoutingStrategy := rs;
     caTags := tags;
     caDescription := schema.GetOkString d "description" |}.

Definition resourceAwsGameliftAliasCreate (conn : GameLift)
           (meta : client.AWSClient) (d : schema.ResourceData) : Outcome :=
  let input := createAliasInput meta d in
  match CreateAlias conn input with
  | Fail err => (d, Some err)
  | Ok out =>
      let d := schema.SetId d (aws_StringValue (AliasId out)) in
      resourceAwsGameliftAliasRead conn meta d
  end.

Definition resourceAwsGameliftAliasUpdate (conn : GameLift)
           (meta : client.AWSClient) (d : schema.ResourceData) : Outcome :=
  let input :=
    {| uaAliasId := Some (schema.Id d);
       uaName := Some (schema.GetString d "name");
       uaDescription := Some (schema.GetString d "description");
       uaRoutingStrategy :=
         expandGameliftRoutingStrategy
           (schema.GetList d "routing_strategy") |} in
  match UpdateAlias conn input with
  | Some err => (d, Some err)
  | None =>
      let arn := schema.GetString d "arn" in
      let updated :=
        if schema.HasChange d "tags_all"
        then
          let '(o, n) := schema.GetChange d "tags_all" in
          GameliftUpdateTags conn arn o n
        else None in
      match updated with
      | Some err =>
          (d, Some (Flatf "error updating Game Lift Alias tags" err))
      | None => resourceAwsGameliftAliasRead conn meta d
      end
  end.

Definition resourceAwsGameliftAliasDelete (conn : GameLift)
           (d : schema.ResourceData) : Outcome :=
  (d, DeleteAlias conn (schema.Id d)).

End gamelift.

(** ** Service Catalog constraint *)

Module servicecatalog.

Definition ErrCodeInvalidParametersException := "InvalidParametersException".
Definition ErrCodeResourceNotFoundException := "ResourceNotFoundException".

Record ConstraintDetail : Type := {
  ConstraintId : option string;
  Description : option string;
  Owner : option string;
  PortfolioId : option string;
  ProductId : option string;
  Type_ : option string
}.

Record CreateConstraintOutput : Type := {
  ccConstraintDetail : option ConstraintDetail
}.

Record DescribeConstraintOutput : Type := {
  dcConstraintDetail : option ConstraintDetail;
  ConstraintParameters : option string;
  Status : option string
}.

Record CreateConstraintInput : Type := {
  ciAcceptLanguage : option string;
  ciDescription : option string;
  ciIdempotencyToken : option string;
  ciParameters : option string;
  ciPortfolioId : option string;
  ciProductId : option string;
  ciType : option string
}.

Record UpdateConstraintInput : Type := {
  uiId : option string;
  uiAcceptLanguage : option string;
  uiDescription : option string;
  uiParameters : option string
}.

Record DeleteConstraintInput : Type := {
  diId : option string;
  diAcceptLanguage : option string
}.

(** The connection.  [CreateConstraint] and [UpdateConstraint] are asked
    several times by one handler: the second argument is the number of
    earlier requests.  [waitConstraintReady] and [waitConstraintDeleted]
    stand for the waiters of the package, which are not under [src/]. *)
Record ServiceCatalog : Type := {
  CreateConstraint : CreateConstraintInput -> nat ->
                     option CreateConstraintOutput * option error;
  UpdateConstraint : UpdateConstraintInput -> nat -> option error;
  DeleteConstraint : DeleteConstraintInput -> option error;
  waitConstraintReady : string -> string ->
                        option DescribeConstraintOutput * option error;
  waitConstraintDeleted : string -> string -> option error
}.

Section Handlers.

(** [tfiam.PropagationTimeout], counted in attempts, and the package constant
    [acceptLanguageEnglish]; neither is under [src/]. *)
Variable PropagationTimeout : nat.
Variable acceptLanguageEnglish : string.

Definition resourceAwsServiceCatalogConstraintRead (conn : ServiceCatalog)
           (d : schema.ResourceData) : Outcome :=
  let '(output, err) :=
    waitConstraintReady conn (schema.GetString d "accept_language")
      (schema.Id d) in
  if negb (schema.IsNewResource d) && tfresource.NotFound err
  then (schema.SetId d "", None)
  else
    match err with
    | Some e =>
        (d, Some (Wrapf "error describing Service Catalog Constraint" e))
    | None =>
        match output with
        | None =>
            (d, Some (ErrorsNew
               "error getting Service Catalog Constraint: empty response"))
        | Some output =>
            match dcConstraintDetail output with
            | None =>
                (d, Some (ErrorsNew
                   "error getting Service Catalog Constraint: empty response"))
            | Some detail =>
                let acceptLanguage := schema.GetString d "accept_language" in
                let acceptLanguage :=
                  if String.eqb acceptLanguage ""
                  then acceptLanguageEnglish else acceptLanguage in
                let d := schema.SetString d "accept_language"
                           (Some acceptLanguage) in
                let d := schema.SetString d "parameters"
                           (ConstraintParameters output) in
                let d := schema.SetString d "status" (Status output) in
                let d := schema.SetString d "description"
                           (Description detail) in
                let d := schema.SetString d "owner" (Owner detail) in
                let d := schema.SetString d "portfolio_id"
                           (PortfolioId detail) in
                let d := schema.SetString d "product_id" (ProductId detail) in
                let d := schema.SetString d "type" (Type_ detail) in
                (d, None)
            end
        end
    end.

(** The verdict of the closure handed to [resource.Retry] by Create. *)
Definition createVerdict (err : option error) : option resource.RetryError :=
  match err with
  | None => None
  | Some e =>
      if tfawserr.ErrMessageContains err ErrCodeInvalidParametersException
           "profile does not exist"
      then Some (resource.RetryableError e)
      else if tfawserr.ErrCodeEquals err ErrCodeResourceNotFoundException
      then Some (resource.RetryableError e)
      else Some (resource.NonRetryableError e)
  end.

(** The verdict of the closure handed to [resource.Retry] by Update. *)
Definition updateVerdict (err : option error) : option resource.RetryError :=
  match err with
  | None => None
  | Some e =>
      if tfawserr.ErrMessageContains err ErrCodeInvalidParametersException
           "profile does not exist"
      then Some (resource.RetryableError e)
      else Some (resource.NonRetryableError e)
  end.

(** The requests of Create: the retry window, then one more request when the
    retry reports a timeout.  Yields the output, the error and the number of
    requests sent. *)
Definition createConstraintRequests (conn : ServiceCatalog)
           (input : CreateConstraintInput)
  : option CreateConstraintOutput * option error * nat :=
  let '(output, err, calls) :=
    resource.Retry PropagationTimeout
      (fun n =>
         let '(output, err) := CreateConstraint conn input n in
         (output, createVerdict err))
      None in
  if tfresource.TimedOut err
  then let '(output, err) := CreateConstraint conn input calls in
       (output, err, S calls)
  else (output, err, calls).

Definition createConstraintInput (token : string) (d : schema.ResourceData)
  : CreateConstraintInput :=
  {| ciIdempotencyToken := Some token;
     ciParameters := Some (schema.GetString d "parameters");
     ciPortfolioId := Some (schema.GetString d "portfolio_id");
     ciProductId := Some (schema.GetString d "product_id");
     ciType := Some (schema.GetString d "type");
     ciAcceptLanguage := schema.GetOkString d "accept_language";
     ciDescription := schema.GetOkString d "description" |}.

(** [token] is the value of [resource.UniqueId()]. *)
Definition resourceAwsServiceCatalogConstraintCreate (conn : ServiceCatalog)
           (token : string) (d : schema.ResourceData) : Outcome :=
  let '(output, err, _) :=
    createConstraintRequests conn (createConstraintInput token d) in
  match err with
  | Some e => (d, Some (Wrapf "error creating Service Catalog Constraint" e))
  | None =>
      match output with
      | None =>
          (d, Some (ErrorsNew
             "error creating Service Catalog Constraint: empty response"))
      | Some output =>
          match ccConstraintDetail output with
          | None =>
              (d, Some (ErrorsNew
                 "error creating Service Catalog Constraint: empty response"))
          | Some detail =>
              let d := schema.SetId d
                         (aws_StringValue (ConstraintId detail)) in
              resourceAwsServiceCatalogConstraintRead conn d
          end
      end
  end.

Definition updateConstraintInput (d : schema.ResourceData)
  : UpdateConstraintInput :=
  {| uiId := Some (schema.Id d);
     uiAcceptLanguage :=
       if schema.HasChange d "accept_language"
       then Some (schema.GetString d "accept_language") else None;
     uiDescription :=
       if schema.HasChange d "description"
       then Some (schema.GetString d "description") else None;
     uiParameters :=
       if schema.HasChange d "parameters"
       then Some (schema.GetString d "parameters") else None |}.

(** The requests of Update, as for Create. *)
Definition updateConstraintRequests (conn : ServiceCatalog)
           (input : UpdateConstraintInput) : option error * nat :=
  let '(_, err, calls) :=
    resource.Retry PropagationTimeout
      (fun n => (tt, updateVerdict (UpdateConstraint conn input n)))
      tt in
  if tfresource.TimedOut err
  then (UpdateConstraint conn input calls, S calls)
  else (err, calls).

Definition resourceAwsServiceCatalogConstraintUpdate (conn : ServiceCatalog)
           (d : schema.ResourceData) : Outcome :=
  let '(err, _) := updateConstraintRequests conn (updateConstraintInput d) in
  match err with
  | Some e => (d, Some (Wrapf "error updating Service Catalog Constraint" e))
  | None => resourceAwsServiceCatalogConstraintRead conn d
  end.

Definition deleteConstraintInput (d : schema.ResourceData)
  : DeleteConstraintInput :=
  {| diId := Some (schema.Id d);
     diAcceptLanguage := schema.GetOkString d "accept_language" |}.

Definition resourceAwsServiceCatalogConstraintDelete (conn : ServiceCatalog)
           (d : schema.ResourceData) : Outcome :=
  let err := DeleteConstraint conn (deleteConstraintInput d) in
  if tfawserr.ErrCodeEquals err ErrCodeResourceNotFoundException
  then (d, None)
  else
    match err with
    | Some e => (d, Some (Wrapf "error deleting Service Catalog Constraint" e))
    | None =>
        let err :=
          waitConstraintDeleted conn (schema.GetString d "accept_language")
            (schema.Id d) in
        match err with
        | Some e =>
            if negb (tfresource.NotFound err)
            then (d, Some (Wrapf
                   "error waiting for Service Catalog Constraint to be deleted"
                   e))
            else (d, None)
        | None => (d, None)
        end
    end.

End Handlers.

End servicecatalog.

(** ** Route 53 Resolver rule data source *)

Module route53resolver.

Definition ShareStatusSharedWithMe := "SHARED_WITH_ME".

Record ResolverRule : Type := {
  Arn : option string;
  DomainName : option string;
  Id : option string;
  Name : option string;
  OwnerId : option string;
  ResolverEndpointId : option string;
  RuleType : option string;
  ShareStatus : option string
}.

(** The connection: the answer of the refresh function of the package for a
    rule id, the pages and final error of the filtered listing, and the tag
    listing. *)
Record Route53Resolver : Type := {
  route53ResolverRuleRefresh : string -> resource.RefreshResult ResolverRule;
  ListResolverRulesPages : gmap string string ->
                           list (list ResolverRule) * option error;
  Route53resolverListTags : string -> Result (gmap string string)
}.

(** One filter per attribute with a non-empty value. *)
Definition buildRoute53ResolverAttributeFilterList
           (attrs : gmap string string) : gmap string string :=
  filter (fun kv => kv.2 ≠ "") attrs.

(** The filters of the listing request. *)
Definition ruleFilters (d : schema.ResourceData) : gmap string string :=
  buildRoute53ResolverAttributeFilterList
    (list_to_map
       [("DOMAIN_NAME", schema.GetString d "domain_name");
        ("NAME", schema.GetString d "name");
        ("RESOLVER_ENDPOINT_ID", schema.GetString d "resolver_endpoint_id");
        ("TYPE", schema.GetString d "rule_type")]).

Section DataSource.

(** The package constant and the helper that are not under [src/]. *)
Variable route53ResolverRuleStatusDeleted : string.
Variable trimTrailingPeriod : string -> string.

(** The lookup of the rule; the inner [None] is the run-time panic of the
    type assertion on a nil value. *)
Definition lookupRule (conn : Route53Resolver) (d : schema.ResourceData)
  : option (Result ResolverRule) :=
  match schema.GetOkString d "resolver_rule_id" with
  | Some v =>
      let '(ruleRaw, state, err) := route53ResolverRuleRefresh conn v in
      match err with
      | Some e => Some (Fail (Wrapf "error getting Route53 Resolver rule" e))
      | None =>
          if String.eqb state route53ResolverRuleStatusDeleted
          then Some (Fail (ErrorsNew
                 "no Route53 Resolver rules matched found with the id"))
          else match ruleRaw with
               | Some rule => Some (Ok rule)
               | None => None
               end
      end
  | None =>
      let '(pages, err) := ListResolverRulesPages conn (ruleFilters d) in
      let rules := List.concat pages in
      match err with
      | Some e => Some (Fail (Wrapf "error getting Route53 Resolver rule" e))
      | None =>
          match rules with
          | [] => Some (Fail (ErrorsNew "no Route53 Resolver rules matched"))
          | [rule] => Some (Ok rule)
          | _ :: _ :: _ =>
              Some (Fail (ErrorsNew
                "Route53 Resolver rules matched; use additional constraints to reduce matches to a rule"))
          end
      end
  end.

Definition dataSourceAwsRoute53ResolverRuleRead (conn : Route53Resolver)
           (meta : client.AWSClient) (d : schema.ResourceData)
  : option Outcome :=
  match lookupRule conn d with
  | None => None
  | Some (Fail err) => Some (d, Some err)
  | Some (Ok rule) =>
      let d := schema.SetId d (aws_StringValue (Id rule)) in
      let d := schema.SetString d "arn" (Arn rule) in
      let d := schema.SetString d "domain_name"
                 (Some (trimTrailingPeriod
                          (aws_StringValue (DomainName rule)))) in
      let d := schema.SetString d "name" (Name rule) in
      let d := schema.SetString d "owner_id" (OwnerId rule) in
      let d := schema.SetString d "resolver_endpoint_id"
                 (ResolverEndpointId rule) in
      let d := schema.SetString d "resolver_rule_id" (Id rule) in
      let d := schema.SetString d "rule_type" (RuleType rule) in
      let shareStatus := aws_StringValue (ShareStatus rule) in
      let d := schema.SetString d "share_status" (Some shareStatus) in
      if negb (String.eqb shareStatus ShareStatusSharedWithMe)
      then
        let arn := aws_StringValue (Arn rule) in
        match Route53resolverListTags conn arn with
        | Fail err =>
            Some (d, Some (Wrapf
               "error listing tags for Route 53 Resolver rule" err))
        | Ok tags =>
            Some (schema.Set_ d "tags"
                    (Some (VMap (client.IgnoreTags meta tags))), None)
        end
      else Some (d, None)
  end.

End DataSource.

End route53resolver.

(** * Vocabulary of the statements, and sample services *)



(** A connection whose every describe call fails with the not-found error. *)
Definition connNotFound : fsx.FSx :=
  fun _ _ =>
    {| fsx.pages := [];
       fsx.pagesErr :=
         Some (AwsError "FileSystemNotFound" "file system does not exist") |}.






(** A file system in the given lifecycle state. *)
Definition fsWithLifecycle (id st : string) : fsx.FileSystem :=
  {| fsx.FileSystemId := Some id;
     fsx.Lifecycle := Some st;
     fsx.FailureDetails := None;
     fsx.AdministrativeActions := [] |}.

(** A connection whose file system becomes available at the third call. *)
Definition connCreating : fsx.FSx :=
  fun id n =>
    {| fsx.pages :=
         [[fsWithLifecycle id (if Nat.ltb n 2 then "CREATING" else "AVAILABLE")]];
       fsx.pagesErr := None |}.

(** No administrative action of the file system has the requested type. *)
Definition noActionOfType (action : string) (fs : fsx.FileSystem) : Prop :=
  forall a, In (Some a) (fsx.AdministrativeActions fs) ->
            aws_StringValue (fsx.AdministrativeActionType a) <> action.

(** A connection whose file system lists one action of another type. *)
Definition connOtherAction : fsx.FSx :=
  fun id _ =>
    {| fsx.pages :=
         [[ {| fsx.FileSystemId := Some id;
               fsx.Lifecycle := Some "AVAILABLE";
               fsx.FailureDetails := None;
               fsx.AdministrativeActions :=
                 [None;
                  Some {| fsx.AdministrativeActionType :=
                            Some "STORAGE_OPTIMIZATION";
                          fsx.Status := Some "IN_PROGRESS" |}] |} ]];
       fsx.pagesErr := None |}.

(** The error carries the given AWS error code (directly or under [%w]
    wrappers). *)
Definition hasCode (code : string) (err : option error) : Prop :=
  exists e m, err = Some e /\ asAwsError e = Some (code, m).

(** An EC2 service on which neither the attachment nor the carrier gateway
    exists. *)
Definition ec2Silent : ec2.EC2 :=
  {| ec2.CreateTransitGatewayPeeringAttachment :=
       fun _ => Fail (ErrorsNew "unused");
     ec2.ec2DescribeTransitGatewayPeeringAttachment := fun _ => (None, None);
     ec2.DeleteTransitGatewayPeeringAttachment :=
       fun _ => Some (AwsError "InvalidTransitGatewayAttachmentID.NotFound"
                        "attachment does not exist");
     ec2.waitForEc2TransitGatewayPeeringAttachmentCreation := fun _ => None;
     ec2.waitForEc2TransitGatewayPeeringAttachmentDeletion := fun _ => None;
     ec2.Ec2UpdateTags := fun _ _ _ => None;
     ec2.CreateCarrierGateway := fun _ _ => Fail (ErrorsNew "unused");
     ec2.findCarrierGatewayByID := fun _ => (None, None);
     ec2.DeleteCarrierGateway :=
       fun _ => Some (AwsError "InvalidCarrierGatewayID.NotFound" "gone");
     ec2.waitCarrierGatewayAvailable := fun _ => None;
     ec2.waitCarrierGatewayDeleted := fun _ => None |}.

(** The local state of an existing resource with no attribute set. *)
Definition stateOf (i : string) : schema.ResourceData :=
  {| schema.id := i; schema.attrs := ∅; schema.prior := ∅;
     schema.isNew := false |}.

(** A Service Catalog service whose waiter reports the constraint not
    found. *)
Definition catalogAbsent : servicecatalog.ServiceCatalog :=
  {| servicecatalog.CreateConstraint := fun _ _ => (None, None);
     servicecatalog.UpdateConstraint := fun _ _ => None;
     servicecatalog.DeleteConstraint := fun _ => None;
     servicecatalog.waitConstraintReady := fun _ _ => (None, Some NotFoundError);
     servicecatalog.waitConstraintDeleted := fun _ _ => None |}.

(** The local state of a constraint that is being created. *)
Definition newConstraint : schema.ResourceData :=
  {| schema.id := "cons-abc"; schema.attrs := ∅; schema.prior := ∅;
     schema.isNew := true |}.

(** Every Read handler leaves the identifier as it is or empties it. *)
Definition keepsOrClearsId (d : schema.ResourceData) (o : Outcome) : Prop :=
  schema.Id (fst o) = schema.Id d \/ schema.Id (fst o) = "".

(** An SES service that accepts every request and reports the rule set
    [rules-b] as the active one. *)
Definition sesSwitched : ses.SES :=
  {| ses.SetActiveReceiptRuleSet := fun _ => None;
     ses.DescribeActiveReceiptRuleSet :=
       Ok {| ses.Metadata := Some {| ses.Name := Some "rules-b" |} |} |}.

(** A client with no tag configuration. *)
Definition someClient : client.AWSClient :=
  {| client.AccountID := "123456789012";
     client.Partition := "aws";
     client.Region := "us-east-1";
     client.IgnoreTags := fun m => m;
     client.RemoveDefaultTags := fun m => m;
     client.MergeDefaultTags := fun m => m |}.

(** The resource was created for the rule set [rules-a]; the configuration
    now names [rules-b]. *)
Definition ruleSetRenamed : schema.ResourceData :=
  {| schema.id := "rules-a";
     schema.attrs := {["rule_set_name" := VString "rules-b"]};
     schema.prior := {["rule_set_name" := VString "rules-a"]};
     schema.isNew := false |}.

(** A DAX service holding one parameter group with the default description. *)
Definition daxOneGroup : dax.DAX :=
  {| dax.CreateParameterGroup := fun _ => None;
     dax.DescribeParameterGroups :=
       fun name =>
         Ok [ {| dax.ParameterGroupName := Some name;
                 dax.Description := Some " " |} ];
     dax.DescribeParameters :=
       fun _ => Ok [ {| dax.ParameterName := Some "query-ttl-millis";
                        dax.ParameterValue := Some "300000" |} ];
     dax.UpdateParameterGroup := fun _ => None;
     dax.DeleteParameterGroup := fun _ => None |}.

(** A flatten helper: one block with the name and the value per
    parameter. *)
Definition flattenParameters (params : list dax.DaxParameter)
  : list (gmap string string) :=
  List.map
    (fun p => {[ "name" := aws_StringValue (dax.ParameterName p);
                 "value" := aws_StringValue (dax.ParameterValue p) ]})
    params.

(** An expand helper: one parameter per block. *)
Definition expandParameters (l : list (gmap string string))
  : list dax.DaxParameter :=
  List.map
    (fun m => {| dax.ParameterName := Some (default "" (m !! "name"));
                 dax.ParameterValue := Some (default "" (m !! "value")) |})
    l.


(** The verdict asks for another attempt. *)
Definition isRetryable (v : option resource.RetryError) : bool :=
  match v with
  | Some (resource.RetryableError _) => true
  | _ => false
  end.

(** The error a verdict carries. *)
Definition verdictError (v : option resource.RetryError) : option error :=
  match v with
  | Some (resource.NonRetryableError e) => Some e
  | Some (resource.RetryableError e) => Some e
  | None => None
  end.

(** The answers Create retries: invalid parameters saying that the profile
    does not exist, and resource not found. *)
Definition createTransient (err : option error) : bool :=
  tfawserr.ErrMessageContains err
    servicecatalog.ErrCodeInvalidParametersException "profile does not exist"
  || tfawserr.ErrCodeEquals err
       servicecatalog.ErrCodeResourceNotFoundException.

(** The answers Update retries: invalid parameters saying that the profile
    does not exist. *)
Definition updateTransient (err : option error) : bool :=
  tfawserr.ErrMessageContains err
    servicecatalog.ErrCodeInvalidParametersException "profile does not exist".

(** The service answers the first update request with resource-not-found and
    would accept the second one. *)
Definition catalogNotYetThere : servicecatalog.ServiceCatalog :=
  {| servicecatalog.CreateConstraint := fun _ _ => (None, None);
     servicecatalog.UpdateConstraint :=
       fun _ n =>
         if Nat.eqb n 0
         then Some (AwsError "ResourceNotFoundException"
                      "constraint not found")
         else None;
     servicecatalog.DeleteConstraint := fun _ => None;
     servicecatalog.waitConstraintReady := fun _ _ => (None, None);
     servicecatalog.waitConstraintDeleted := fun _ _ => None |}.

(** The service answers every create request within the window with
    resource-not-found, and the request after it with the constraint. *)
Definition catalogPropagating : servicecatalog.ServiceCatalog :=
  {| servicecatalog.CreateConstraint :=
       fun _ n =>
         if Nat.ltb n 3
         then (None, Some (AwsError "ResourceNotFoundException"
                             "portfolio not found"))
         else (Some {| servicecatalog.ccConstraintDetail := None |}, None);
     servicecatalog.UpdateConstraint := fun _ _ => None;
     servicecatalog.DeleteConstraint := fun _ => None;
     servicecatalog.waitConstraintReady := fun _ _ => (None, None);
     servicecatalog.waitConstraintDeleted := fun _ _ => None |}.

(** A GameLift service that describes the alias and fails to list its
    tags. *)
Definition gameliftTagsDown : gamelift.GameLift :=
  {| gamelift.CreateAlias := fun _ => Fail (ErrorsNew "unused");
     gamelift.DescribeAlias :=
       fun i =>
         Ok {| gamelift.AliasArn := Some "arn:aws:gamelift:::alias/alias-1";
               gamelift.AliasId := Some i;
               gamelift.Description := None;
               gamelift.Name := Some "live";
               gamelift.aliasRoutingStrategy :=
                 Some {| gamelift.FleetId := Some "fleet-1";
                         gamelift.Message := None;
                         gamelift.Type_ := Some "SIMPLE" |} |};
     gamelift.UpdateAlias := fun _ => None;
     gamelift.DeleteAlias := fun _ => None;
     gamelift.GameliftListTags := fun _ => Fail (ErrorsNew "throttled");
     gamelift.GameliftUpdateTags := fun _ _ _ => None |}.

(** An EC2 service whose attachment is being deleted. *)
Definition ec2Deleting : ec2.EC2 :=
  {| ec2.CreateTransitGatewayPeeringAttachment :=
       fun _ => Fail (ErrorsNew "unused");
     ec2.ec2DescribeTransitGatewayPeeringAttachment :=
       fun i =>
         (Some {| ec2.AccepterTgwInfo :=
                    {| ec2.OwnerId := None; ec2.PeerRegion := None;
                       ec2.TransitGatewayId := None |};
                  ec2.RequesterTgwInfo :=
                    {| ec2.OwnerId := None; ec2.PeerRegion := None;
                       ec2.TransitGatewayId := None |};
                  ec2.State := Some "deleting";
                  ec2.Tags := ∅;
                  ec2.TransitGatewayAttachmentId := Some i |}, None);
     ec2.DeleteTransitGatewayPeeringAttachment := fun _ => None;
     ec2.waitForEc2TransitGatewayPeeringAttachmentCreation := fun _ => None;
     ec2.waitForEc2TransitGatewayPeeringAttachmentDeletion :=
       fun _ => Some NotFoundError;
     ec2.Ec2UpdateTags := fun _ _ _ => None;
     ec2.CreateCarrierGateway := fun _ _ => Fail (ErrorsNew "unused");
     ec2.findCarrierGatewayByID := fun _ => (None, None);
     ec2.DeleteCarrierGateway := fun _ => None;
     ec2.waitCarrierGatewayAvailable := fun _ => None;
     ec2.waitCarrierGatewayDeleted := fun _ => None |}.

(** A DAX service that lists the group and then reports it gone when its
    parameters are listed. *)
Definition daxParametersGone : dax.DAX :=
  {| dax.CreateParameterGroup := fun _ => None;
     dax.DescribeParameterGroups :=
       fun name =>
         Ok [ {| dax.ParameterGroupName := Some name;
                 dax.Description := None |} ];
     dax.DescribeParameters :=
       fun _ => Fail (AwsError "ParameterGroupNotFoundFault" "gone");
     dax.UpdateParameterGroup := fun _ => None;
     dax.DeleteParameterGroup := fun _ => None |}.

(** The attachment a create request returns. *)
Definition createdAttachment : ec2.TransitGatewayPeeringAttachment :=
  {| ec2.AccepterTgwInfo :=
       {| ec2.OwnerId := None; ec2.PeerRegion := None;
          ec2.TransitGatewayId := None |};
     ec2.RequesterTgwInfo :=
       {| ec2.OwnerId := None; ec2.PeerRegion := None;
          ec2.TransitGatewayId := None |};
     ec2.State := Some "pending";
     ec2.Tags := ∅;
     ec2.TransitGatewayAttachmentId := Some "tgw-attach-9" |}.

(** An EC2 service that creates the attachment and then fails while its
    availability is awaited. *)
Definition ec2CreatedNotReady : ec2.EC2 :=
  {| ec2.CreateTransitGatewayPeeringAttachment := fun _ => Ok createdAttachment;
     ec2.ec2DescribeTransitGatewayPeeringAttachment := fun _ => (None, None);
     ec2.DeleteTransitGatewayPeeringAttachment := fun _ => None;
     ec2.waitForEc2TransitGatewayPeeringAttachmentCreation :=
       fun _ => Some (ErrorsNew "unexpected state failed");
     ec2.waitForEc2TransitGatewayPeeringAttachmentDeletion := fun _ => None;
     ec2.Ec2UpdateTags := fun _ _ _ => None;
     ec2.CreateCarrierGateway := fun _ _ => Fail (ErrorsNew "unused");
     ec2.findCarrierGatewayByID := fun _ => (None, None);
     ec2.DeleteCarrierGateway := fun _ => None;
     ec2.waitCarrierGatewayAvailable := fun _ => None;
     ec2.waitCarrierGatewayDeleted := fun _ => None |}.

(** A Service Catalog service that accepts the delete request and whose
    deletion waiter reports the constraint not found. *)
Definition catalogGoneWhileWaiting : servicecatalog.ServiceCatalog :=
  {| servicecatalog.CreateConstraint := fun _ _ => (None, None);
     servicecatalog.UpdateConstraint := fun _ _ => None;
     servicecatalog.DeleteConstraint := fun _ => None;
     servicecatalog.waitConstraintReady := fun _ _ => (None, None);
     servicecatalog.waitConstraintDeleted := fun _ _ => Some NotFoundError |}.

(** The detail and the description of a constraint that is ready. *)
Definition readyDetail : servicecatalog.ConstraintDetail :=
  {| servicecatalog.ConstraintId := Some "cons-abc";
     servicecatalog.Description := None;
     servicecatalog.Owner := Some "123456789012";
     servicecatalog.PortfolioId := Some "port-1";
     servicecatalog.ProductId := Some "prod-1";
     servicecatalog.Type_ := Some "LAUNCH" |}.

Definition readyOutput : servicecatalog.DescribeConstraintOutput :=
  {| servicecatalog.dcConstraintDetail := Some readyDetail;
     servicecatalog.ConstraintParameters := Some "{}";
     servicecatalog.Status := Some "AVAILABLE" |}.

(** A Service Catalog service whose constraint is ready. *)
Definition catalogReady : servicecatalog.ServiceCatalog :=
  {| servicecatalog.CreateConstraint := fun _ _ => (None, None);
     servicecatalog.UpdateConstraint := fun _ _ => None;
     servicecatalog.DeleteConstraint := fun _ => None;
     servicecatalog.waitConstraintReady :=
       fun _ _ => (Some readyOutput, None);
     servicecatalog.waitConstraintDeleted := fun _ _ => None |}.

(** A GameLift service that describes the alias and lists no tags. *)
Definition gameliftUp : gamelift.GameLift :=
  {| gamelift.CreateAlias := fun _ => Fail (ErrorsNew "unused");
     gamelift.DescribeAlias := gamelift.DescribeAlias gameliftTagsDown;
     gamelift.UpdateAlias := fun _ => None;
     gamelift.DeleteAlias := fun _ => None;
     gamelift.GameliftListTags := fun _ => Ok ∅;
     gamelift.GameliftUpdateTags := fun _ _ _ => None |}.

(** A configuration that names the given rule set. *)
Definition stateOfRuleSet (name : string) : schema.ResourceData :=
  {| schema.id := "";
     schema.attrs := {["rule_set_name" := VString name]};
     schema.prior := ∅;
     schema.isNew := true |}.

(** A rule with the given id and share status. *)
Definition ruleWith (i share : string) : route53resolver.ResolverRule :=
  {| route53resolver.Arn := Some "arn:aws:route53resolver:::rule";
     route53resolver.DomainName := Some "example.com.";
     route53resolver.Id := Some i;
     route53resolver.Name := Some "rule";
     route53resolver.OwnerId := Some "123456789012";
     route53resolver.ResolverEndpointId := None;
     route53resolver.RuleType := Some "FORWARD";
     route53resolver.ShareStatus := Some share |}.

(** A resolver whose listing delivers two pages with one rule each. *)
Definition resolverTwoRules : route53resolver.Route53Resolver :=
  {| route53resolver.route53ResolverRuleRefresh :=
       fun _ => (None, "DELETED", None);
     route53resolver.ListResolverRulesPages :=
       fun _ => ([[ruleWith "rslvr-rr-1" "NOT_SHARED"];
                  [ruleWith "rslvr-rr-2" "NOT_SHARED"]], None);
     route53resolver.Route53resolverListTags := fun _ => Ok ∅ |}.

(** The one rule of the next resolver, shared with the account. *)
Definition sharedRule : route53resolver.ResolverRule :=
  ruleWith "rslvr-rr-1" "SHARED_WITH_ME".

(** A resolver that lists one shared rule and cannot list tags. *)
Definition resolverShared : route53resolver.Route53Resolver :=
  {| route53resolver.route53ResolverRuleRefresh :=
       fun _ => (None, "DELETED", None);
     route53resolver.ListResolverRulesPages := fun _ => ([[sharedRule]], None);
     route53resolver.Route53resolverListTags :=
       fun _ => Fail (AwsError "AccessDeniedException" "not the owner") |}.

(** A Security Hub service that accepts the update and reports the setting
    switched off. *)
Definition hubKeepsOff : securityhub.SecurityHub :=
  {| securityhub.UpdateOrganizationConfiguration := fun _ => None;
     securityhub.DescribeOrganizationConfiguration :=
       Ok {| securityhub.AutoEnable := Some false |} |}.

(** A configuration that switches the setting on. *)
Definition wantsAutoEnable : schema.ResourceData :=
  {| schema.id := "";
     schema.attrs := {["auto_enable" := VBool true]};
     schema.prior := ∅;
     schema.isNew := true |}.

(** * Properties *)

(** ** The poller *)

Section PollerFacts.
Context {A : Type}.
Variable NotFoundChecks : nat.
Implicit Types (conf : resource.StateChangeConf A) (last : option A).

Lemma poll_calls_lower conf fuel n nf last ls :
  (n <= resource.Calls (resource.poll NotFoundChecks conf fuel n nf last ls))%nat.
Proof.
  revert n nf last ls.
  induction fuel as [|fuel IH]; intros n nf last ls; simpl; [lia|].
  destruct (resource.Refresh conf n) as [[res st] [err|]]; simpl; [lia|].
  destruct res as [r|].
  - destruct (resource.inStates st (resource.Target conf)); simpl; [lia|].
    destruct (resource.inStates st (resource.Pending conf)); simpl; [|lia].
    specialize (IH (S n) 0 (Some r) st). lia.
  - destruct (resource.Target conf); simpl; [lia|].
    destruct (Nat.ltb NotFoundChecks (S nf)); simpl; [lia|].
    specialize (IH (S n) (S nf) None st). lia.
Qed.

Lemma poll_success_calls conf fuel n nf last ls :
  resource.Err (resource.poll NotFoundChecks conf fuel n nf last ls) = None ->
  (S n <= resource.Calls (resource.poll NotFoundChecks conf fuel n nf last ls))%nat.
Proof.
  destruct fuel as [|fuel]; simpl; [discriminate|].
  destruct (resource.Refresh conf n) as [[res st] [err|]]; simpl; [lia|].
  destruct res as [r|].
  - destruct (resource.inStates st (resource.Target conf)); simpl; [lia|].
    destruct (resource.inStates st (resource.Pending conf)); simpl; [|lia].
    intros _. pose proof (poll_calls_lower conf fuel (S n) 0 (Some r) st). lia.
  - destruct (resource.Target conf); simpl; [lia|].
    destruct (Nat.ltb NotFoundChecks (S nf)); simpl; [lia|].
    intros _. pose proof (poll_calls_lower conf fuel (S n) (S nf) None st). lia.
Qed.

(** Absence observed at a tick ends the wait successfully at that tick
    exactly when the target set is empty. *)
Lemma poll_absent_iff conf fuel n nf last ls st :
  resource.Refresh conf n = (None, st, None) ->
  let w := resource.poll NotFoundChecks conf (S fuel) n nf last ls in
  (resource.Err w = None /\ resource.Calls w = S n)
  <-> resource.Target conf = [].
Proof.
  intros Hr. simpl. rewrite Hr.
  destruct (resource.Target conf) as [|t ts]; simpl.
  - split; [reflexivity | intros _; split; reflexivity].
  - split; [|discriminate].
    destruct (Nat.ltb NotFoundChecks (S nf)); simpl.
    + intros [He _]. discriminate.
    + intros [He Hc].
      pose proof (poll_success_calls conf fuel (S n) (S nf) None st He). lia.
Qed.



End PollerFacts.

(** ** FSx waiters *)

Lemma SetLastError_None_iff err lastErr :
  tfresource.SetLastError err lastErr = None <-> err = None.
Proof.
  destruct err as [e|]; simpl; [|tauto].
  split; [|discriminate].
  destruct e as [| |[c|] s l|[c|] s l| | |]; discriminate.
Qed.

Lemma withFailureDetails_None_iff (w : resource.WaitResult fsx.FileSystem) :
  fsx.withFailureDetails w = None <-> resource.Err w = None.
Proof.
  unfold fsx.withFailureDetails.
  destruct (resource.Output w) as [output|]; [|tauto].
  destruct (fsx.FailureDetails output); [|tauto].
  apply SetLastError_None_iff.
Qed.

(** A describe call answered by the not-found error of the service makes
    the lifecycle refresh report the resource absent, without error. *)
Lemma refresh_not_found conn id n :
  tfawserr.ErrMessageContains (snd (fsx.describeFsxFileSystem conn id n))
    fsx.ErrCodeFileSystemNotFound "" = true ->
  fsx.refreshFsxFileSystemLifecycle conn id n = (None, "", None).
Proof.
  unfold fsx.refreshFsxFileSystemLifecycle.
  destruct (fsx.describeFsxFileSystem conn id n) as [filesystem err]; simpl.
  intros ->. reflexivity.
Qed.

Lemma refresh_found conn id n fs :
  fsx.describeFsxFileSystem conn id n = (Some fs, None) ->
  fsx.refreshFsxFileSystemLifecycle conn id n
  = (Some fs, aws_StringValue (fsx.Lifecycle fs), None).
Proof.
  unfold fsx.refreshFsxFileSystemLifecycle. intros ->. reflexivity.
Qed.

(** While every describe call reports the resource absent, a wait for a
    non-empty target set never succeeds. *)
Lemma poll_always_absent_fails {A : Type} nfc (conf : resource.StateChangeConf A)
      fuel n nf last ls :
  (forall k, resource.Refresh conf k = (None, "", None)) ->
  resource.Target conf <> [] ->
  resource.Err (resource.poll nfc conf fuel n nf last ls) <> None.
Proof.
  intros Hr Ht. revert n nf last ls.
  induction fuel as [|fuel IH]; intros n nf last ls; simpl; [discriminate|].
  rewrite Hr.
  destruct (resource.Target conf) as [|t ts]; [congruence|].
  destruct (Nat.ltb nfc (S nf)); simpl; [discriminate|]. apply IH.
Qed.

(** C1. When the describe operation reports the file system absent by the
    not-found class of error, the poller treats absence observed at a tick as
    success at that tick if and only if the target set is empty; the
    deletion waiter, whose target set is empty, returns success at the first
    describe call, and the creation waiter, whose target set is not empty,
    does not return success. *)
Theorem C1_absence_is_success_iff_target_empty
        (nfc : nat) (conn : fsx.FSx) (id : string) (timeout : nat) :
  (forall n, tfawserr.ErrMessageContains
               (snd (fsx.describeFsxFileSystem conn id n))
               fsx.ErrCodeFileSystemNotFound "" = true) ->
  (forall (conf : resource.StateChangeConf fsx.FileSystem) fuel n nf last ls,
      resource.Refresh conf = fsx.refreshFsxFileSystemLifecycle conn id ->
      let w := resource.poll nfc conf (S fuel) n nf last ls in
      (resource.Err w = None /\ resource.Calls w = S n)
      <-> resource.Target conf = [])
  /\ resource.WaitForState nfc (fsx.deletionConf conn id (S timeout))
     = {| resource.Output := None; resource.Err := None;
          resource.Calls := 1 |}
  /\ fsx.waitForFsxFileSystemDeletion nfc conn id (S timeout) = None
  /\ fsx.waitForFsxFileSystemCreation nfc conn id timeout <> None.
Proof.
  intros Habsent.
  assert (Hr : forall k,
             fsx.refreshFsxFileSystemLifecycle conn id k = (None, "", None)).
  { intros k. apply refresh_not_found, Habsent. }
  assert (Hdel : resource.WaitForState nfc (fsx.deletionConf conn id (S timeout))
                 = {| resource.Output := None; resource.Err := None;
                      resource.Calls := 1 |}).
  { unfold resource.WaitForState. simpl. rewrite Hr. reflexivity. }
  split; [|split; [exact Hdel|split]].
  - intros conf fuel n nf last ls Hconf.
    apply poll_absent_iff with (st := ""). rewrite Hconf. apply Hr.
  - unfold fsx.waitForFsxFileSystemDeletion. rewrite Hdel. reflexivity.
  - unfold fsx.waitForFsxFileSystemCreation.
    rewrite withFailureDetails_None_iff.
    apply poll_always_absent_fails; [exact Hr | discriminate].
Qed.

(** C1 at a concrete service. *)
Lemma C1_witness :
  resource.WaitForState 20 (fsx.deletionConf connNotFound "fs-0123" 4)
  = {| resource.Output := None; resource.Err := None; resource.Calls := 1 |}
  /\ fsx.waitForFsxFileSystemCreation 20 connNotFound "fs-0123" 4 <> None.
Proof.
  pose proof (C1_absence_is_success_iff_target_empty 20 connNotFound
                "fs-0123" 3 (fun n => eq_refl)) as H.
  split; [apply H|].
  destruct (C1_absence_is_success_iff_target_empty 20 connNotFound
              "fs-0123" 4 (fun n => eq_refl)) as (_ & _ & _ & Hc).
  exact Hc.
Defined.








(** C8. The creation waiter is configured with pending set CREATING and
    target set AVAILABLE; when the describe calls observe the statuses
    CREATING, CREATING, AVAILABLE in this order, the wait returns success on
    the third call. *)
Theorem C8_success_on_third_call
        (nfc : nat) (conn : fsx.FSx) (id : string) (extra : nat)
        (fs0 fs1 fs2 : fsx.FileSystem) :
  fsx.describeFsxFileSystem conn id 0 = (Some fs0, None) ->
  fsx.Lifecycle fs0 = Some "CREATING" ->
  fsx.describeFsxFileSystem conn id 1 = (Some fs1, None) ->
  fsx.Lifecycle fs1 = Some "CREATING" ->
  fsx.describeFsxFileSystem conn id 2 = (Some fs2, None) ->
  fsx.Lifecycle fs2 = Some "AVAILABLE" ->
  let conf := fsx.creationConf conn id (3 + extra) in
  resource.Pending conf = ["CREATING"]
  /\ resource.Target conf = ["AVAILABLE"]
  /\ resource.WaitForState nfc conf
     = {| resource.Output := Some fs2; resource.Err := None;
          resource.Calls := 3 |}
  /\ fsx.waitForFsxFileSystemCreation nfc conn id (3 + extra) = None.
Proof.
  intros H0 L0 H1 L1 H2 L2 conf.
  assert (Hw : resource.WaitForState nfc conf
               = {| resource.Output := Some fs2; resource.Err := None;
                    resource.Calls := 3 |}).
  { unfold resource.WaitForState, conf. simpl.
    rewrite (refresh_found _ _ _ _ H0), L0. simpl.
    rewrite (refresh_found _ _ _ _ H1), L1. simpl.
    rewrite (refresh_found _ _ _ _ H2), L2. simpl. reflexivity. }
  split; [reflexivity|]. split; [reflexivity|]. split; [exact Hw|].
  unfold fsx.waitForFsxFileSystemCreation. fold conf.
  rewrite withFailureDetails_None_iff, Hw. reflexivity.
Qed.

(** C8 at a concrete service. *)
Lemma C8_witness :
  resource.WaitForState 20 (fsx.creationConf connCreating "fs-0123" 5)
  = {| resource.Output := Some (fsWithLifecycle "fs-0123" "AVAILABLE");
       resource.Err := None; resource.Calls := 3 |}.
Proof.
  apply (C8_success_on_third_call 20 connCreating "fs-0123" 2
           (fsWithLifecycle "fs-0123" "CREATING")
           (fsWithLifecycle "fs-0123" "CREATING")
           (fsWithLifecycle "fs-0123" "AVAILABLE"));
    reflexivity.
Defined.

Lemma findActionStatus_none action l :
  (forall a, In (Some a) l ->
             aws_StringValue (fsx.AdministrativeActionType a) <> action) ->
  fsx.findActionStatus action l = None.
Proof.
  induction l as [|[a|] l IH]; simpl; intros H; [reflexivity| |].
  - destruct (String.eqb_spec
                (aws_StringValue (fsx.AdministrativeActionType a)) action)
      as [E|_].
    + exfalso. apply (H a); [left; reflexivity | exact E].
    + apply IH. intros b Hb. apply H. right. exact Hb.
  - apply IH. intros b Hb. apply H. right. exact Hb.
Qed.

(** C9. When the file system found by a describe call has no administrative
    action of the requested type, the administrative-action refresh reports
    the status COMPLETED, which is a target state of the waiter, and the
    wait succeeds at that very call. *)
Theorem C9_missing_action_reads_completed
        (nfc : nat) (conn : fsx.FSx) (id action : string) (timeout : nat)
        (fs : fsx.FileSystem) (fuel n nf : nat)
        (last : option fsx.FileSystem) (ls : string) :
  fsx.describeFsxFileSystem conn id n = (Some fs, None) ->
  noActionOfType action fs ->
  let conf := fsx.administrativeActionConf conn id action timeout in
  fsx.refreshFsxFileSystemAdministrativeActionsStatusFileSystemUpdate
    conn id action n = (Some fs, fsx.StatusCompleted, None)
  /\ resource.inStates fsx.StatusCompleted (resource.Target conf) = true
  /\ resource.poll nfc conf (S fuel) n nf last ls
     = {| resource.Output := Some fs; resource.Err := None;
          resource.Calls := S n |}.
Proof.
  intros Hd Hno conf.
  assert (Hr : fsx.refreshFsxFileSystemAdministrativeActionsStatusFileSystemUpdate
                 conn id action n = (Some fs, fsx.StatusCompleted, None)).
  { unfold fsx.refreshFsxFileSystemAdministrativeActionsStatusFileSystemUpdate.
    rewrite Hd. simpl. rewrite (findActionStatus_none _ _ Hno). reflexivity. }
  split; [exact Hr|]. split; [reflexivity|].
  unfold conf. simpl. rewrite Hr. reflexivity.
Qed.

(** C9 at a concrete service. *)
Lemma C9_witness :
  fsx.waitForFsxFileSystemUpdateAdministrativeActionsStatusFileSystemUpdate
    20 connOtherAction "fs-0123" "FILE_SYSTEM_UPDATE" 1 = None.
Proof.
  unfold fsx.waitForFsxFileSystemUpdateAdministrativeActionsStatusFileSystemUpdate,
    resource.WaitForState.
  destruct (C9_missing_action_reads_completed 20 connOtherAction "fs-0123"
              "FILE_SYSTEM_UPDATE" 1
              {| fsx.FileSystemId := Some "fs-0123";
                 fsx.Lifecycle := Some "AVAILABLE";
                 fsx.FailureDetails := None;
                 fsx.AdministrativeActions :=
                   [None;
                    Some {| fsx.AdministrativeActionType :=
                              Some "STORAGE_OPTIMIZATION";
                            fsx.Status := Some "IN_PROGRESS" |}] |}
              0 0 0 None "") as (_ & _ & Hp).
  - reflexivity.
  - intros a [Ha|[Ha|[]]]; [discriminate|].
    injection Ha as <-. simpl. discriminate.
  - simpl resource.Timeout. rewrite Hp. reflexivity.
Defined.

(** ** Not-found answers *)

Lemma strings_Contains_empty s : strings_Contains s "" = true.
Proof. destruct s; reflexivity. Qed.

Lemma hasCode_ErrMessageContains code err :
  hasCode code err -> tfawserr.ErrMessageContains err code "" = true.
Proof.
  intros (e & m & -> & He). unfold tfawserr.ErrMessageContains.
  rewrite He, String.eqb_refl, strings_Contains_empty. reflexivity.
Qed.

Lemma hasCode_ErrCodeEquals code err :
  hasCode code err -> tfawserr.ErrCodeEquals err code = true.
Proof.
  intros (e & m & -> & He). unfold tfawserr.ErrCodeEquals.
  rewrite He, String.eqb_refl. reflexivity.
Qed.

(** C10. Each Delete handler that inspects the API error returns success,
    leaving the local state as it is, when the delete request is answered by
    the not-found error of its service: transit gateway peering attachment,
    DAX parameter group, carrier gateway and Service Catalog constraint. *)
Theorem C10_delete_of_absent_resource_succeeds :
  (forall conn d,
      hasCode "InvalidTransitGatewayAttachmentID.NotFound"
        (ec2.DeleteTransitGatewayPeeringAttachment conn (schema.Id d)) ->
      ec2.resourceAwsEc2TransitGatewayPeeringAttachmentDelete conn d
      = (d, None))
  /\ (forall conn d,
         hasCode dax.ErrCodeParameterGroupNotFoundFault
           (dax.DeleteParameterGroup conn (schema.Id d)) ->
         dax.resourceAwsDaxParameterGroupDelete conn d = (d, None))
  /\ (forall conn d,
         hasCode ec2.errCodeInvalidCarrierGatewayIDNotFound
           (ec2.DeleteCarrierGateway conn (schema.Id d)) ->
         ec2.resourceAwsEc2CarrierGatewayDelete conn d = (d, None))
  /\ (forall conn d,
         hasCode servicecatalog.ErrCodeResourceNotFoundException
           (servicecatalog.DeleteConstraint conn
              (servicecatalog.deleteConstraintInput d)) ->
         servicecatalog.resourceAwsServiceCatalogConstraintDelete conn d
         = (d, None)).
Proof.
  repeat split; intros conn d H.
  - unfold ec2.resourceAwsEc2TransitGatewayPeeringAttachmentDelete.
    rewrite (hasCode_ErrMessageContains _ _ H). reflexivity.
  - unfold dax.resourceAwsDaxParameterGroupDelete.
    destruct H as (e & m & -> & He).
    rewrite (hasCode_ErrMessageContains _ (Some e)); [reflexivity|].
    exists e, m. split; [reflexivity | exact He].
  - unfold ec2.resourceAwsEc2CarrierGatewayDelete.
    rewrite (hasCode_ErrCodeEquals _ _ H). reflexivity.
  - unfold servicecatalog.resourceAwsServiceCatalogConstraintDelete.
    rewrite (hasCode_ErrCodeEquals _ _ H). reflexivity.
Qed.

(** C10 at a concrete service. *)
Lemma C10_witness :
  ec2.resourceAwsEc2TransitGatewayPeeringAttachmentDelete ec2Silent
    (stateOf "tgw-attach-1") = (stateOf "tgw-attach-1", None).
Proof.
  apply (proj1 C10_delete_of_absent_resource_succeeds).
  exists (AwsError "InvalidTransitGatewayAttachmentID.NotFound"
            "attachment does not exist"), "attachment does not exist".
  split; reflexivity.
Defined.

(** ** Read on an absent resource *)

(** C3, counterexample. The Read handler of the Service Catalog constraint,
    run for a resource that is being created and answered with the
    not-found error of the waiter, returns that error and keeps the
    identifier. *)
Lemma C3_counterexample :
  tfresource.NotFound
    (snd (servicecatalog.waitConstraintReady catalogAbsent
            (schema.GetString newConstraint "accept_language")
            (schema.Id newConstraint))) = true
  /\ servicecatalog.resourceAwsServiceCatalogConstraintRead "en"
       catalogAbsent newConstraint
     = (newConstraint,
        Some (Wrapf "error describing Service Catalog Constraint"
                NotFoundError))
  /\ schema.Id newConstraint <> "".
Proof. repeat split. discriminate. Qed.

(** C3, amended. Read on a resource the API reports absent empties the
    identifier and returns success for the transit gateway peering attachment,
    the DAX parameter group, the carrier gateway and the SES active receipt
    rule set (not-found error or empty result), for the GameLift alias
    (not-found error) and, unless the resource is being created, for the
    Service Catalog constraint; for a Service Catalog constraint that is
    being created Read returns the error of the waiter, and the Security Hub
    Read returns every API error; the Route 53 Resolver rule data source
    returns an error when the rule id is reported deleted or when the filters
    match no rule. *)
Theorem C3_read_of_absent_resource :
  (forall conn meta d,
      let answer :=
        ec2.ec2DescribeTransitGatewayPeeringAttachment conn (schema.Id d) in
      hasCode "InvalidTransitGatewayAttachmentID.NotFound" (snd answer)
      \/ answer = (None, None) ->
      ec2.resourceAwsEc2TransitGatewayPeeringAttachmentRead conn meta d
      = (schema.SetId d "", None))
  /\ (forall flatten conn d,
         (exists e, dax.DescribeParameterGroups conn (schema.Id d) = Fail e
                    /\ hasCode dax.ErrCodeParameterGroupNotFoundFault (Some e))
         \/ dax.DescribeParameterGroups conn (schema.Id d) = Ok [] ->
         dax.resourceAwsDaxParameterGroupRead flatten conn d
         = (schema.SetId d "", None))
  /\ (forall conn meta d,
         let answer := ec2.findCarrierGatewayByID conn (schema.Id d) in
         hasCode ec2.errCodeInvalidCarrierGatewayIDNotFound (snd answer)
         \/ answer = (None, None) ->
         ec2.resourceAwsEc2CarrierGatewayRead conn meta d
         = (schema.SetId d "", None))
  /\ (forall conn meta d,
         (exists e, ses.DescribeActiveReceiptRuleSet conn = Fail e
                    /\ hasCode ses.ErrCodeRuleSetDoesNotExistException (Some e))
         \/ ses.DescribeActiveReceiptRuleSet conn
            = Ok {| ses.Metadata := None |} ->
         ses.resourceAwsSesActiveReceiptRuleSetRead conn meta d
         = (schema.SetId d "", None))
  /\ (forall conn meta d e,
         gamelift.DescribeAlias conn (schema.Id d) = Fail e ->
         hasCode gamelift.ErrCodeNotFoundException (Some e) ->
         gamelift.resourceAwsGameliftAliasRead conn meta d
         = (schema.SetId d "", None))
  /\ (forall english conn d,
         schema.IsNewResource d = false ->
         tfresource.NotFound
           (snd (servicecatalog.waitConstraintReady conn
                   (schema.GetString d "accept_language") (schema.Id d)))
         = true ->
         servicecatalog.resourceAwsServiceCatalogConstraintRead english conn d
         = (schema.SetId d "", None))
  /\ (forall english conn d e,
         schema.IsNewResource d = true ->
         snd (servicecatalog.waitConstraintReady conn
                (schema.GetString d "accept_language") (schema.Id d))
         = Some e ->
         servicecatalog.resourceAwsServiceCatalogConstraintRead english conn d
         = (d, Some (Wrapf "error describing Service Catalog Constraint" e)))
  /\ (forall conn d e,
         securityhub.DescribeOrganizationConfiguration conn = Fail e ->
         securityhub.resourceAwsSecurityHubOrganizationConfigurationRead
           conn d
         = (d, Some (Wrapf
                       "error reading Security Hub Organization Configuration"
                       e)))
  /\ (forall deleted trim conn meta d v rule,
         schema.GetOkString d "resolver_rule_id" = Some v ->
         route53resolver.route53ResolverRuleRefresh conn v
         = (rule, deleted, None) ->
         exists e,
           route53resolver.dataSourceAwsRoute53ResolverRuleRead deleted trim
             conn meta d = Some (d, Some e))
  /\ (forall deleted trim conn meta d pages,
         schema.GetOkString d "resolver_rule_id" = None ->
         route53resolver.ListResolverRulesPages conn
           (route53resolver.ruleFilters d) = (pages, None) ->
         List.concat pages = [] ->
         exists e,
           route53resolver.dataSourceAwsRoute53ResolverRuleRead deleted trim
             conn meta d = Some (d, Some e)).
Proof.
  split; [|split; [|split; [|split; [|split; [|split; [|split; [|split;
    [|split]]]]]]]].
  - intros conn meta d answer H.
    unfold ec2.resourceAwsEc2TransitGatewayPeeringAttachmentRead.
    fold answer. destruct H as [H|H].
    + destruct answer as [a err]. simpl in H.
      rewrite (hasCode_ErrMessageContains _ _ H). reflexivity.
    + rewrite H. reflexivity.
  - intros flatten conn d H.
    unfold dax.resourceAwsDaxParameterGroupRead.
    destruct H as [(e & He & H)|He]; rewrite He; [|reflexivity].
    rewrite (hasCode_ErrMessageContains _ _ H). reflexivity.
  - intros conn meta d answer H.
    unfold ec2.resourceAwsEc2CarrierGatewayRead.
    fold answer. destruct H as [H|H].
    + destruct answer as [a err]. simpl in H.
      rewrite (hasCode_ErrCodeEquals _ _ H). reflexivity.
    + rewrite H. reflexivity.
  - intros conn meta d H.
    unfold ses.resourceAwsSesActiveReceiptRuleSetRead.
    destruct H as [(e & He & H)|He]; rewrite He; [|reflexivity].
    rewrite (hasCode_ErrMessageContains _ _ H). reflexivity.
  - intros conn meta d e He H.
    unfold gamelift.resourceAwsGameliftAliasRead. rewrite He.
    rewrite (hasCode_ErrMessageContains _ _ H). reflexivity.
  - intros english conn d Hnew H.
    unfold servicecatalog.resourceAwsServiceCatalogConstraintRead.
    destruct (servicecatalog.waitConstraintReady conn
                (schema.GetString d "accept_language") (schema.Id d))
      as [output err].
    simpl in H. rewrite Hnew, H. reflexivity.
  - intros english conn d e Hnew He.
    unfold servicecatalog.resourceAwsServiceCatalogConstraintRead.
    destruct (servicecatalog.waitConstraintReady conn
                (schema.GetString d "accept_language") (schema.Id d))
      as [output err].
    simpl in He. subst err. rewrite Hnew. reflexivity.
  - intros conn d e He.
    unfold securityhub.resourceAwsSecurityHubOrganizationConfigurationRead.
    rewrite He. reflexivity.
  - intros deleted trim conn meta d v rule Hv Hr.
    unfold route53resolver.dataSourceAwsRoute53ResolverRuleRead,
      route53resolver.lookupRule.
    rewrite Hv, Hr, String.eqb_refl. eexists. reflexivity.
  - intros deleted trim conn meta d pages Hv Hl Hnil.
    unfold route53resolver.dataSourceAwsRoute53ResolverRuleRead,
      route53resolver.lookupRule.
    rewrite Hv, Hl, Hnil. eexists. reflexivity.
Qed.

(** ** The identifier under Update *)

Ltac by_cases_on_answers :=
  repeat case_match; simpl; auto.

Lemma dax_Read_id flatten conn d :
  keepsOrClearsId d (dax.resourceAwsDaxParameterGroupRead flatten conn d).
Proof.
  unfold keepsOrClearsId, dax.resourceAwsDaxParameterGroupRead.
  by_cases_on_answers.
Qed.

Lemma carrier_Read_id conn meta d :
  keepsOrClearsId d (ec2.resourceAwsEc2CarrierGatewayRead conn meta d).
Proof.
  unfold keepsOrClearsId, ec2.resourceAwsEc2CarrierGatewayRead.
  by_cases_on_answers.
Qed.

Lemma gamelift_Read_id conn meta d :
  keepsOrClearsId d (gamelift.resourceAwsGameliftAliasRead conn meta d).
Proof.
  unfold keepsOrClearsId, gamelift.resourceAwsGameliftAliasRead.
  by_cases_on_answers.
Qed.

Lemma catalog_Read_id english conn d :
  keepsOrClearsId d
    (servicecatalog.resourceAwsServiceCatalogConstraintRead english conn d).
Proof.
  unfold keepsOrClearsId,
    servicecatalog.resourceAwsServiceCatalogConstraintRead.
  by_cases_on_answers.
Qed.

Lemma ses_Read_id conn meta d :
  keepsOrClearsId d (ses.resourceAwsSesActiveReceiptRuleSetRead conn meta d).
Proof.
  unfold keepsOrClearsId, ses.resourceAwsSesActiveReceiptRuleSetRead.
  by_cases_on_answers.
Qed.

Lemma securityhub_Read_id conn d :
  schema.Id
    (fst (securityhub.resourceAwsSecurityHubOrganizationConfigurationRead
            conn d)) = schema.Id d.
Proof.
  unfold securityhub.resourceAwsSecurityHubOrganizationConfigurationRead.
  by_cases_on_answers.
Qed.

(** C5, counterexample. The active rule set is switched from [rules-a] to
    [rules-b]: Update succeeds and replaces the identifier assigned at
    creation by the new name. *)
Lemma C5_counterexample :
  let o := ses.resourceAwsSesActiveReceiptRuleSetUpdate sesSwitched someClient
             ruleSetRenamed in
  snd o = None
  /\ schema.Id ruleSetRenamed = "rules-a"
  /\ schema.Id (fst o) = "rules-b".
Proof. vm_compute. repeat split. Qed.

(** C5, amended. Update never replaces the identifier by a different
    non-empty value for the transit gateway peering attachment (unchanged),
    the DAX parameter group, the carrier gateway, the GameLift alias and the
    Service Catalog constraint (unchanged, or emptied by the closing Read).
    The Security Hub Update sets the identifier to the account id of the
    client, so an Update after a successful Create under the same client
    keeps the identifier.  The SES Update sets the identifier to the
    configured rule set name: it keeps (or empties) the identifier when the
    name equals the identifier, and otherwise ends with the identifier
    unchanged, emptied, or equal to the new name, the latter whenever the
    service accepts the request and reports an active rule set. *)
Theorem C5_identifier_under_update :
  (forall conn d,
      schema.Id (fst (ec2.resourceAwsEc2TransitGatewayPeeringAttachmentUpdate
                        conn d)) = schema.Id d)
  /\ (forall flatten expand conn d,
         keepsOrClearsId d
           (dax.resourceAwsDaxParameterGroupUpdate flatten expand conn d))
  /\ (forall conn meta d,
         keepsOrClearsId d (ec2.resourceAwsEc2CarrierGatewayUpdate conn meta d))
  /\ (forall conn meta d,
         keepsOrClearsId d (gamelift.resourceAwsGameliftAliasUpdate conn meta d))
  /\ (forall window english conn d,
         keepsOrClearsId d
           (servicecatalog.resourceAwsServiceCatalogConstraintUpdate
              window english conn d))
  /\ (forall conn1 conn2 meta d,
         let created :=
           securityhub.resourceAwsSecurityHubOrganizationConfigurationUpdate
             conn1 meta d in
         snd created = None ->
         schema.Id (fst created) = client.AccountID meta
         /\ schema.Id
              (fst (securityhub.resourceAwsSecurityHubOrganizationConfigurationUpdate
                      conn2 meta (fst created)))
            = schema.Id (fst created))
  /\ (forall conn meta d,
         let o := ses.resourceAwsSesActiveReceiptRuleSetUpdate conn meta d in
         (schema.GetString d "rule_set_name" = schema.Id d ->
          keepsOrClearsId d o)
         /\ (schema.Id (fst o) = schema.Id d
             \/ schema.Id (fst o) = ""
             \/ schema.Id (fst o) = schema.GetString d "rule_set_name")
         /\ (forall metadata,
                ses.SetActiveReceiptRuleSet conn
                  (Some (schema.GetString d "rule_set_name")) = None ->
                ses.DescribeActiveReceiptRuleSet conn
                = Ok {| ses.Metadata := Some metadata |} ->
                snd o = None
                /\ schema.Id (fst o) = schema.GetString d "rule_set_name")).
Proof.
  split; [|split; [|split; [|split; [|split; [|split]]]]].
  - intros conn d.
    unfold ec2.resourceAwsEc2TransitGatewayPeeringAttachmentUpdate.
    by_cases_on_answers.
  - intros flatten expand conn d.
    unfold dax.resourceAwsDaxParameterGroupUpdate.
    destruct (dax.UpdateParameterGroup conn _); [left; reflexivity|].
    apply dax_Read_id.
  - intros conn meta d. unfold ec2.resourceAwsEc2CarrierGatewayUpdate.
    case_match; [left; reflexivity|]. apply carrier_Read_id.
  - intros conn meta d. unfold gamelift.resourceAwsGameliftAliasUpdate.
    case_match; [left; reflexivity|].
    case_match; [left; reflexivity|]. apply gamelift_Read_id.
  - intros window english conn d.
    unfold servicecatalog.resourceAwsServiceCatalogConstraintUpdate.
    destruct (servicecatalog.updateConstraintRequests window conn _)
      as [[e|] calls]; [left; reflexivity|].
    apply catalog_Read_id.
  - intros conn1 conn2 meta d created Hok.
    assert (Hid : schema.Id (fst created) = client.AccountID meta).
    { revert Hok. unfold created,
        securityhub.resourceAwsSecurityHubOrganizationConfigurationUpdate.
      case_match; [discriminate|]. intros _.
      rewrite securityhub_Read_id. reflexivity. }
    split; [exact Hid|].
    unfold securityhub.resourceAwsSecurityHubOrganizationConfigurationUpdate.
    case_match; [reflexivity|].
    rewrite securityhub_Read_id. simpl. symmetry. exact Hid.
  - intros conn meta d o.
    assert (H : schema.Id (fst o) = schema.Id d
                \/ schema.Id (fst o) = ""
                \/ schema.Id (fst o) = schema.GetString d "rule_set_name").
    { unfold o, ses.resourceAwsSesActiveReceiptRuleSetUpdate.
      case_match; [left; reflexivity|].
      destruct (ses_Read_id conn meta
                  (schema.SetId d (schema.GetString d "rule_set_name")))
        as [Hr|Hr]; rewrite Hr; auto. }
    split; [|split; [exact H|]].
    + intros Hname. unfold keepsOrClearsId. rewrite Hname in H. tauto.
    + intros metadata Hset Hdesc.
      unfold o, ses.resourceAwsSesActiveReceiptRuleSetUpdate,
        ses.resourceAwsSesActiveReceiptRuleSetRead.
      rewrite Hset, Hdesc. split; reflexivity.
Qed.

(** ** Reading twice *)

Lemma lookup_Set_ d k v i :
  schema.attrs (schema.Set_ d k v) !! i
  = if decide (k = i) then v else schema.attrs d !! i.
Proof.
  unfold schema.Set_. simpl. destruct v as [x|].
  - apply lookup_insert.
  - apply lookup_delete.
Qed.

Lemma ResourceData_eq (d1 d2 : schema.ResourceData) :
  schema.id d1 = schema.id d2 ->
  (forall i, schema.attrs d1 !! i = schema.attrs d2 !! i) ->
  schema.prior d1 = schema.prior d2 ->
  schema.isNew d1 = schema.isNew d2 ->
  d1 = d2.
Proof.
  destruct d1, d2. simpl. intros -> Ha -> ->.
  f_equal. apply map_eq. exact Ha.
Qed.

(** Equality of two states built by chains of [d.Set]: field by field, and
    attribute by attribute through the lookups. *)
Ltac same_state :=
  apply ResourceData_eq; [reflexivity | | reflexivity | reflexivity];
  intros i; unfold schema.SetString, schema.SetBool, ec2.setTags;
  rewrite ?lookup_Set_;
  repeat (case_decide; [reflexivity|]); reflexivity.

Lemma dax_Read_twice flatten conn d :
  let d1 := fst (dax.resourceAwsDaxParameterGroupRead flatten conn d) in
  dax.DescribeParameterGroups conn (schema.Id d1)
  = dax.DescribeParameterGroups conn (schema.Id d) ->
  dax.DescribeParameters conn (schema.Id d1)
  = dax.DescribeParameters conn (schema.Id d) ->
  dax.resourceAwsDaxParameterGroupRead flatten conn d1
  = dax.resourceAwsDaxParameterGroupRead flatten conn d.
Proof.
  intros d1 H1 H2.
  unfold dax.resourceAwsDaxParameterGroupRead at 1. rewrite H1, H2.
  subst d1. unfold dax.resourceAwsDaxParameterGroupRead.
  repeat case_match; simpl; try reflexivity.
  f_equal. same_state.
Qed.

Lemma GetString_SetString_eq d k s :
  schema.GetString (schema.SetString d k (Some s)) k = s.
Proof.
  unfold schema.GetString, schema.SetString. rewrite lookup_Set_.
  rewrite decide_True by reflexivity. reflexivity.
Qed.

Lemma GetString_SetString_ne d k k' v :
  k <> k' -> schema.GetString (schema.SetString d k v) k' = schema.GetString d k'.
Proof.
  intros Hne. unfold schema.GetString, schema.SetString. rewrite lookup_Set_.
  rewrite decide_False by exact Hne. reflexivity.
Qed.

Ltac read_twice R :=
  unfold R; repeat case_match; simpl; try reflexivity;
  try (f_equal; same_state).

Lemma securityhub_Read_twice conn d :
  securityhub.resourceAwsSecurityHubOrganizationConfigurationRead conn
    (fst (securityhub.resourceAwsSecurityHubOrganizationConfigurationRead
            conn d))
  = securityhub.resourceAwsSecurityHubOrganizationConfigurationRead conn d.
Proof.
  read_twice securityhub.resourceAwsSecurityHubOrganizationConfigurationRead.
Qed.

Lemma ses_Read_twice conn meta d :
  ses.resourceAwsSesActiveReceiptRuleSetRead conn meta
    (fst (ses.resourceAwsSesActiveReceiptRuleSetRead conn meta d))
  = ses.resourceAwsSesActiveReceiptRuleSetRead conn meta d.
Proof. read_twice ses.resourceAwsSesActiveReceiptRuleSetRead. Qed.

Lemma tgw_Read_twice conn meta d :
  let d1 := fst (ec2.resourceAwsEc2TransitGatewayPeeringAttachmentRead
                   conn meta d) in
  ec2.ec2DescribeTransitGatewayPeeringAttachment conn (schema.Id d1)
  = ec2.ec2DescribeTransitGatewayPeeringAttachment conn (schema.Id d) ->
  ec2.resourceAwsEc2TransitGatewayPeeringAttachmentRead conn meta d1
  = ec2.resourceAwsEc2TransitGatewayPeeringAttachmentRead conn meta d.
Proof.
  intros d1 H1.
  unfold ec2.resourceAwsEc2TransitGatewayPeeringAttachmentRead at 1.
  rewrite H1. subst d1.
  read_twice ec2.resourceAwsEc2TransitGatewayPeeringAttachmentRead.
Qed.

Lemma carrier_Read_twice conn meta d :
  let d1 := fst (ec2.resourceAwsEc2CarrierGatewayRead conn meta d) in
  ec2.findCarrierGatewayByID conn (schema.Id d1)
  = ec2.findCarrierGatewayByID conn (schema.Id d) ->
  ec2.resourceAwsEc2CarrierGatewayRead conn meta d1
  = ec2.resourceAwsEc2CarrierGatewayRead conn meta d.
Proof.
  intros d1 H1.
  unfold ec2.resourceAwsEc2CarrierGatewayRead at 1.
  rewrite H1. subst d1.
  read_twice ec2.resourceAwsEc2CarrierGatewayRead.
Qed.

Lemma gamelift_Read_twice conn meta d :
  let d1 := fst (gamelift.resourceAwsGameliftAliasRead conn meta d) in
  gamelift.DescribeAlias conn (schema.Id d1)
  = gamelift.DescribeAlias conn (schema.Id d) ->
  gamelift.resourceAwsGameliftAliasRead conn meta d1
  = gamelift.resourceAwsGameliftAliasRead conn meta d.
Proof.
  intros d1 H1.
  unfold gamelift.resourceAwsGameliftAliasRead at 1.
  rewrite H1. subst d1.
  read_twice gamelift.resourceAwsGameliftAliasRead.
Qed.

Lemma catalog_Read_twice english conn d :
  let d1 := fst (servicecatalog.resourceAwsServiceCatalogConstraintRead
                   english conn d) in
  servicecatalog.waitConstraintReady conn
    (schema.GetString d1 "accept_language") (schema.Id d1)
  = servicecatalog.waitConstraintReady conn
      (schema.GetString d "accept_language") (schema.Id d) ->
  servicecatalog.resourceAwsServiceCatalogConstraintRead english conn d1
  = servicecatalog.resourceAwsServiceCatalogConstraintRead english conn d.
Proof.
  intros d1 H1.
  unfold servicecatalog.resourceAwsServiceCatalogConstraintRead at 1.
  rewrite H1. unfold schema.IsNewResource.
  assert (Hn : schema.isNew d1 = schema.isNew d).
  { subst d1. unfold servicecatalog.resourceAwsServiceCatalogConstraintRead.
    repeat case_match; reflexivity. }
  rewrite Hn. clear H1 Hn. subst d1.
  unfold servicecatalog.resourceAwsServiceCatalogConstraintRead,
    schema.IsNewResource.
  destruct (servicecatalog.waitConstraintReady conn
              (schema.GetString d "accept_language") (schema.Id d))
    as [output err].
  destruct (negb (schema.isNew d) && tfresource.NotFound err);
    [reflexivity|].
  destruct err as [e|]; [reflexivity|].
  destruct output as [output|]; [|reflexivity].
  destruct (servicecatalog.dcConstraintDetail output) as [detail|];
    [|reflexivity].
  cbn [fst]. f_equal.
  rewrite !GetString_SetString_ne by discriminate.
  rewrite GetString_SetString_eq.
  assert (Hal : (if String.eqb
                      (if String.eqb (schema.GetString d "accept_language") ""
                       then english
                       else schema.GetString d "accept_language") ""
                 then english
                 else if String.eqb (schema.GetString d "accept_language") ""
                      then english
                      else schema.GetString d "accept_language")
                = (if String.eqb (schema.GetString d "accept_language") ""
                   then english
                   else schema.GetString d "accept_language")).
  { destruct (String.eqb (schema.GetString d "accept_language") "") eqn:E0.
    - destruct (String.eqb english ""); reflexivity.
    - rewrite E0. reflexivity. }
  rewrite Hal. same_state.
Qed.

(** C7. For every resource, a second Read that gets the same answers from
    the API as the first one leaves the same local state and returns the same
    error. *)
Theorem C7_read_twice_same_output :
  (forall conn d,
      securityhub.resourceAwsSecurityHubOrganizationConfigurationRead conn
        (fst (securityhub.resourceAwsSecurityHubOrganizationConfigurationRead
                conn d))
      = securityhub.resourceAwsSecurityHubOrganizationConfigurationRead conn d)
  /\ (forall flatten conn d,
         let d1 := fst (dax.resourceAwsDaxParameterGroupRead flatten conn d) in
         dax.DescribeParameterGroups conn (schema.Id d1)
         = dax.DescribeParameterGroups conn (schema.Id d) ->
         dax.DescribeParameters conn (schema.Id d1)
         = dax.DescribeParameters conn (schema.Id d) ->
         dax.resourceAwsDaxParameterGroupRead flatten conn d1
         = dax.resourceAwsDaxParameterGroupRead flatten conn d)
  /\ (forall conn meta d,
         ses.resourceAwsSesActiveReceiptRuleSetRead conn meta
           (fst (ses.resourceAwsSesActiveReceiptRuleSetRead conn meta d))
         = ses.resourceAwsSesActiveReceiptRuleSetRead conn meta d)
  /\ (forall conn meta d,
         let d1 := fst (ec2.resourceAwsEc2TransitGatewayPeeringAttachmentRead
                          conn meta d) in
         ec2.ec2DescribeTransitGatewayPeeringAttachment conn (schema.Id d1)
         = ec2.ec2DescribeTransitGatewayPeeringAttachment conn (schema.Id d) ->
         ec2.resourceAwsEc2TransitGatewayPeeringAttachmentRead conn meta d1
         = ec2.resourceAwsEc2TransitGatewayPeeringAttachmentRead conn meta d)
  /\ (forall conn meta d,
         let d1 := fst (ec2.resourceAwsEc2CarrierGatewayRead conn meta d) in
         ec2.findCarrierGatewayByID conn (schema.Id d1)
         = ec2.findCarrierGatewayByID conn (schema.Id d) ->
         ec2.resourceAwsEc2CarrierGatewayRead conn meta d1
         = ec2.resourceAwsEc2CarrierGatewayRead conn meta d)
  /\ (forall conn meta d,
         let d1 := fst (gamelift.resourceAwsGameliftAliasRead conn meta d) in
         gamelift.DescribeAlias conn (schema.Id d1)
         = gamelift.DescribeAlias conn (schema.Id d) ->
         gamelift.resourceAwsGameliftAliasRead conn meta d1
         = gamelift.resourceAwsGameliftAliasRead conn meta d)
  /\ (forall english conn d,
         let d1 := fst (servicecatalog.resourceAwsServiceCatalogConstraintRead
                          english conn d) in
         servicecatalog.waitConstraintReady conn
           (schema.GetString d1 "accept_language") (schema.Id d1)
         = servicecatalog.waitConstraintReady conn
             (schema.GetString d "accept_language") (schema.Id d) ->
         servicecatalog.resourceAwsServiceCatalogConstraintRead english conn d1
         = servicecatalog.resourceAwsServiceCatalogConstraintRead english
             conn d).
Proof.
  split; [exact securityhub_Read_twice|].
  split; [exact dax_Read_twice|].
  split; [exact ses_Read_twice|].
  split; [exact tgw_Read_twice|].
  split; [exact carrier_Read_twice|].
  split; [exact gamelift_Read_twice|].
  exact catalog_Read_twice.
Qed.

(** C7 at a concrete service. *)
Lemma C7_witness :
  let r := dax.resourceAwsDaxParameterGroupRead flattenParameters daxOneGroup
             (stateOf "group-a") in
  dax.resourceAwsDaxParameterGroupRead flattenParameters daxOneGroup (fst r)
  = r
  /\ schema.GetString (fst r) "description" = ""
  /\ schema.GetString (fst r) "name" = "group-a".
Proof.
  split.
  - apply (proj1 (proj2 C7_read_twice_same_output)); reflexivity.
  - split; reflexivity.
Defined.

(** ** DAX parameter group: what is written is read back *)

Ltac lookup_attr :=
  unfold schema.GetString, schema.GetList, schema.SetString;
  rewrite ?lookup_Set_;
  repeat first [ rewrite decide_True by reflexivity
               | rewrite decide_False by discriminate ].



(** ** Service Catalog constraint: retries *)

Section RetryFacts.
Context {A : Type}.
Variable f : nat -> A * option resource.RetryError.

(** The first verdict that is not retryable, if it comes within the window,
    ends the loop at once with its own error. *)
Lemma retry_decided fuel n last rerr k :
  (k < fuel)%nat ->
  (forall j, (j < k)%nat -> isRetryable (snd (f (n + j))) = true) ->
  isRetryable (snd (f (n + k))) = false ->
  resource.retry f fuel n last rerr
  = (fst (f (n + k)), verdictError (snd (f (n + k))), S (n + k)).
Proof.
  revert fuel n last rerr.
  induction k as [|k IH]; intros fuel n last rerr Hk Hbefore Hat.
  - destruct fuel as [|fuel]; [lia|]. simpl.
    rewrite Nat.add_0_r in *.
    destruct (f n) as [out [[e|e]|]]; simpl in *;
      [discriminate | reflexivity | reflexivity].
  - destruct fuel as [|fuel]; [lia|]. simpl.
    pose proof (Hbefore 0 ltac:(lia)) as H0. rewrite Nat.add_0_r in H0.
    destruct (f n) as [out [[e|e]|]]; simpl in H0; try discriminate.
    replace (n + S k) with (S n + k) in * by lia.
    apply IH; [lia | | exact Hat].
    intros j Hj. replace (S n + j) with (n + S j) by lia.
    apply Hbefore. lia.
Qed.

(** When every verdict within a window of at least one attempt is
    retryable, the loop makes as many attempts as the window holds and ends
    with the value and the error of the last attempt. *)
Lemma retry_exhausted fuel n last rerr :
  (forall j, (j < S fuel)%nat -> isRetryable (snd (f (n + j))) = true) ->
  resource.retry f (S fuel) n last rerr
  = (fst (f (n + fuel)), verdictError (snd (f (n + fuel))), S (n + fuel)).
Proof.
  revert n last rerr.
  induction fuel as [|fuel IH]; intros n last rerr Hall.
  - pose proof (Hall 0 ltac:(lia)) as H0. rewrite Nat.add_0_r in *.
    simpl. destruct (f n) as [out [[e|e]|]]; simpl in H0; try discriminate.
    reflexivity.
  - pose proof (Hall 0 ltac:(lia)) as H0. rewrite Nat.add_0_r in H0.
    change (resource.retry f (S (S fuel)) n last rerr)
      with (let '(out, verdict) := f n in
            match verdict with
            | None => (out, None, S n)
            | Some (resource.NonRetryableError err) => (out, Some err, S n)
            | Some (resource.RetryableError err) =>
                resource.retry f (S fuel) (S n) out (Some err)
            end).
    destruct (f n) as [out [[e|e]|]]; simpl in H0; try discriminate.
    replace (n + S fuel) with (S n + fuel) by lia.
    apply IH. intros j Hj. replace (S n + j) with (n + S j) by lia.
    apply Hall. lia.
Qed.

(** The loop makes no more attempts than the window holds. *)
Lemma retry_calls_upper fuel n last rerr :
  (snd (resource.retry f fuel n last rerr) <= n + fuel)%nat.
Proof.
  revert n last rerr.
  induction fuel as [|fuel IH]; intros n last rerr; simpl.
  - destruct rerr; simpl; lia.
  - destruct (f n) as [out [[e|e]|]]; simpl; try lia.
    specialize (IH (S n) out (Some e)). lia.
Qed.

End RetryFacts.

Lemma createVerdict_retryable err :
  isRetryable (servicecatalog.createVerdict err) = createTransient err.
Proof.
  unfold servicecatalog.createVerdict, createTransient.
  destruct err as [e|]; [|reflexivity].
  destruct (tfawserr.ErrMessageContains (Some e) _ _); [reflexivity|].
  destruct (tfawserr.ErrCodeEquals (Some e) _); reflexivity.
Qed.

Lemma createVerdict_error err :
  verdictError (servicecatalog.createVerdict err) = err.
Proof.
  unfold servicecatalog.createVerdict.
  destruct err as [e|]; [|reflexivity].
  destruct (tfawserr.ErrMessageContains (Some e) _ _); [reflexivity|].
  destruct (tfawserr.ErrCodeEquals (Some e) _); reflexivity.
Qed.

Lemma updateVerdict_retryable err :
  isRetryable (servicecatalog.updateVerdict err) = updateTransient err.
Proof.
  unfold servicecatalog.updateVerdict, updateTransient.
  destruct err as [e|]; [|reflexivity].
  destruct (tfawserr.ErrMessageContains (Some e) _ _); reflexivity.
Qed.

Lemma updateVerdict_error err :
  verdictError (servicecatalog.updateVerdict err) = err.
Proof.
  unfold servicecatalog.updateVerdict.
  destruct err as [e|]; [|reflexivity].
  destruct (tfawserr.ErrMessageContains (Some e) _ _); reflexivity.
Qed.

Lemma createTransient_not_timeout err :
  createTransient err = true -> tfresource.TimedOut err = false.
Proof.
  destruct err as [e|]; [|reflexivity].
  destruct e; try reflexivity. discriminate.
Qed.

Lemma updateTransient_not_timeout err :
  updateTransient err = true -> tfresource.TimedOut err = false.
Proof.
  destruct err as [e|]; [|reflexivity].
  destruct e; try reflexivity. discriminate.
Qed.

(** C6, counterexample. Update is answered with resource-not-found at the
    first request, within a window of five attempts, and would be accepted at
    the second: it sends one request only and returns the error.  Create is
    answered with resource-not-found at each of the three attempts of its
    window and would be accepted at a fourth request: it sends three
    requests, no additional one, and returns the error. *)
Lemma C6_counterexample :
  let input := servicecatalog.updateConstraintInput (stateOf "cons-abc") in
  let created := servicecatalog.createConstraintInput "token" (stateOf "") in
  tfawserr.ErrCodeEquals
    (servicecatalog.UpdateConstraint catalogNotYetThere input 0)
    servicecatalog.ErrCodeResourceNotFoundException = true
  /\ servicecatalog.UpdateConstraint catalogNotYetThere input 1 = None
  /\ servicecatalog.updateConstraintRequests 5 catalogNotYetThere input
     = (Some (AwsError "ResourceNotFoundException" "constraint not found"), 1)
  /\ servicecatalog.resourceAwsServiceCatalogConstraintUpdate 5 "en"
       catalogNotYetThere (stateOf "cons-abc")
     = (stateOf "cons-abc",
        Some (Wrapf "error updating Service Catalog Constraint"
                (AwsError "ResourceNotFoundException"
                   "constraint not found")))
  /\ servicecatalog.CreateConstraint catalogPropagating created 3
     = (Some {| servicecatalog.ccConstraintDetail := None |}, None)
  /\ servicecatalog.createConstraintRequests 3 catalogPropagating created
     = (None,
        Some (AwsError "ResourceNotFoundException" "portfolio not found"), 3).
Proof. vm_compute. repeat split. Qed.

(** C6, amended. Create retries the answers invalid-parameters "profile does
    not exist" and resource-not-found; Update retries only invalid-parameters
    "profile does not exist".  In both, no more requests are sent than the
    retry window holds attempts, plus one.  When every answer within a
    window of at least one attempt is retried, as many requests are sent as
    the window holds attempts and the answer to the last of them is the
    result: no additional request follows.  The additional request is sent
    when the window elapses before any attempt was made.  The first answer
    within the window that is not retried (and is not itself a timeout
    error) ends the requests at once.  An error that results is returned to
    the caller, wrapped with context, leaving the local state as it is. *)
Theorem C6_bounded_retry_of_transient_errors
        (window : nat) (english : string)
        (conn : servicecatalog.ServiceCatalog) :
  (forall input,
      (snd (servicecatalog.createConstraintRequests window conn input)
       <= S window)%nat)
  /\ (forall input m,
         window = S m ->
         (forall j, (j < window)%nat ->
                    createTransient
                      (snd (servicecatalog.CreateConstraint conn input j))
                    = true) ->
         servicecatalog.createConstraintRequests window conn input
         = (servicecatalog.CreateConstraint conn input m, window))
  /\ (forall input,
         window = 0%nat ->
         servicecatalog.createConstraintRequests window conn input
         = (servicecatalog.CreateConstraint conn input 0, 1%nat))
  /\ (forall input k,
         (k < window)%nat ->
         (forall j, (j < k)%nat ->
                    createTransient
                      (snd (servicecatalog.CreateConstraint conn input j))
                    = true) ->
         createTransient (snd (servicecatalog.CreateConstraint conn input k))
         = false ->
         tfresource.TimedOut
           (snd (servicecatalog.CreateConstraint conn input k)) = false ->
         servicecatalog.createConstraintRequests window conn input
         = (servicecatalog.CreateConstraint conn input k, S k))
  /\ (forall token d e,
         snd (fst (servicecatalog.createConstraintRequests window conn
                     (servicecatalog.createConstraintInput token d)))
         = Some e ->
         servicecatalog.resourceAwsServiceCatalogConstraintCreate window
           english conn token d
         = (d, Some (Wrapf "error creating Service Catalog Constraint" e)))
  /\ (forall input,
         (snd (servicecatalog.updateConstraintRequests window conn input)
          <= S window)%nat)
  /\ (forall input m,
         window = S m ->
         (forall j, (j < window)%nat ->
                    updateTransient
                      (servicecatalog.UpdateConstraint conn input j) = true) ->
         servicecatalog.updateConstraintRequests window conn input
         = (servicecatalog.UpdateConstraint conn input m, window))
  /\ (forall input,
         window = 0%nat ->
         servicecatalog.updateConstraintRequests window conn input
         = (servicecatalog.UpdateConstraint conn input 0, 1%nat))
  /\ (forall input k,
         (k < window)%nat ->
         (forall j, (j < k)%nat ->
                    updateTransient
                      (servicecatalog.UpdateConstraint conn input j) = true) ->
         updateTransient (servicecatalog.UpdateConstraint conn input k)
         = false ->
         tfresource.TimedOut (servicecatalog.UpdateConstraint conn input k)
         = false ->
         servicecatalog.updateConstraintRequests window conn input
         = (servicecatalog.UpdateConstraint conn input k, S k))
  /\ (forall d e,
         fst (servicecatalog.updateConstraintRequests window conn
                (servicecatalog.updateConstraintInput d)) = Some e ->
         servicecatalog.resourceAwsServiceCatalogConstraintUpdate window
           english conn d
         = (d, Some (Wrapf "error updating Service Catalog Constraint" e)))
  /\ (forall err,
         hasCode servicecatalog.ErrCodeResourceNotFoundException err ->
         createTransient err = true /\ updateTransient err = false).
Proof.
  repeat apply conj.
  - intros input.
    unfold servicecatalog.createConstraintRequests, resource.Retry.
    pose proof (retry_calls_upper
                  (fun n =>
                     let '(output, err) :=
                       servicecatalog.CreateConstraint conn input n in
                     (output, servicecatalog.createVerdict err))
                  window 0 None None) as Hle.
    destruct (resource.retry _ window 0 None None) as [[output err] calls].
    simpl in Hle.
    destruct (tfresource.TimedOut err).
    + destruct (servicecatalog.CreateConstraint conn input calls).
      simpl. lia.
    + simpl. lia.
  - intros input m Hw Hall. subst window.
    unfold servicecatalog.createConstraintRequests, resource.Retry.
    rewrite retry_exhausted.
    + simpl. pose proof (Hall m ltac:(lia)) as Hm.
      destruct (servicecatalog.CreateConstraint conn input m) as [o e].
      simpl in *. rewrite createVerdict_error.
      rewrite (createTransient_not_timeout _ Hm). reflexivity.
    + intros j Hj. simpl.
      destruct (servicecatalog.CreateConstraint conn input j) as [o e] eqn:E.
      simpl. rewrite createVerdict_retryable.
      specialize (Hall j Hj). rewrite E in Hall. exact Hall.
  - intros input Hw. subst window.
    unfold servicecatalog.createConstraintRequests, resource.Retry. simpl.
    destruct (servicecatalog.CreateConstraint conn input 0). reflexivity.
  - intros input k Hk Hbefore Hat Hnt.
    unfold servicecatalog.createConstraintRequests, resource.Retry.
    rewrite (retry_decided _ window 0 None None k Hk).
    + simpl.
      destruct (servicecatalog.CreateConstraint conn input k) as [o e] eqn:E.
      simpl. rewrite createVerdict_error.
      simpl in Hnt. rewrite Hnt. reflexivity.
    + intros j Hj. simpl.
      destruct (servicecatalog.CreateConstraint conn input j) as [o e] eqn:E.
      simpl. rewrite createVerdict_retryable.
      specialize (Hbefore j Hj). rewrite E in Hbefore. exact Hbefore.
    + simpl.
      destruct (servicecatalog.CreateConstraint conn input k) as [o e] eqn:E.
      simpl. rewrite createVerdict_retryable. exact Hat.
  - intros token d e He.
    unfold servicecatalog.resourceAwsServiceCatalogConstraintCreate.
    destruct (servicecatalog.createConstraintRequests window conn _)
      as [[output err] calls].
    simpl in He. subst err. reflexivity.
  - intros input.
    unfold servicecatalog.updateConstraintRequests, resource.Retry.
    pose proof (retry_calls_upper
                  (fun n =>
                     (tt, servicecatalog.updateVerdict
                            (servicecatalog.UpdateConstraint conn input n)))
                  window 0 tt None) as Hle.
    destruct (resource.retry _ window 0 tt None) as [[output err] calls].
    simpl in Hle.
    destruct (tfresource.TimedOut err); simpl; lia.
  - intros input m Hw Hall. subst window.
    unfold servicecatalog.updateConstraintRequests, resource.Retry.
    rewrite retry_exhausted.
    + simpl. rewrite updateVerdict_error.
      rewrite (updateTransient_not_timeout _ (Hall m ltac:(lia))).
      reflexivity.
    + intros j Hj. simpl. rewrite updateVerdict_retryable.
      apply Hall. exact Hj.
  - intros input Hw. subst window. reflexivity.
  - intros input k Hk Hbefore Hat Hnt.
    unfold servicecatalog.updateConstraintRequests, resource.Retry.
    rewrite (retry_decided _ window 0 tt None k Hk).
    + simpl. rewrite updateVerdict_error, Hnt. reflexivity.
    + intros j Hj. simpl. rewrite updateVerdict_retryable.
      apply Hbefore. exact Hj.
    + simpl. rewrite updateVerdict_retryable. exact Hat.
  - intros d e He.
    unfold servicecatalog.resourceAwsServiceCatalogConstraintUpdate.
    destruct (servicecatalog.updateConstraintRequests window conn _)
      as [err calls].
    simpl in He. subst err. reflexivity.
  - intros err H. split.
    + unfold createTransient. rewrite (hasCode_ErrCodeEquals _ _ H).
      apply orb_true_r.
    + destruct H as (e & m & -> & He).
      unfold updateTransient, tfawserr.ErrMessageContains. rewrite He.
      reflexivity.
Qed.

(** C6 at a concrete service: the three attempts of the window are answered
    with resource-not-found, and the third answer is the result. *)
Lemma C6_witness :
  servicecatalog.createConstraintRequests 3 catalogPropagating
    (servicecatalog.createConstraintInput "token" (stateOf ""))
  = (None, Some (AwsError "ResourceNotFoundException" "portfolio not found"),
     3%nat).
Proof.
  apply (proj1 (proj2 (C6_bounded_retry_of_transient_errors 3 "en"
                         catalogPropagating))
           (servicecatalog.createConstraintInput "token" (stateOf "")) 2
           eq_refl).
  intros j Hj. destruct j as [|[|[|j]]]; [reflexivity..|lia].
Defined.

(** C3 at a concrete service. *)
Lemma C3_witness :
  ec2.resourceAwsEc2TransitGatewayPeeringAttachmentRead ec2Silent someClient
    (stateOf "tgw-attach-1") = (stateOf "", None).
Proof.
  apply (proj1 C3_read_of_absent_resource ec2Silent someClient
           (stateOf "tgw-attach-1")).
  right. reflexivity.
Defined.

(** C5 at a concrete service. *)
Lemma C5_witness :
  keepsOrClearsId (stateOf "group-a")
    (dax.resourceAwsDaxParameterGroupUpdate flattenParameters
       expandParameters daxOneGroup (stateOf "group-a")).
Proof.
  apply (proj1 (proj2 C5_identifier_under_update)).
Defined.

(** * Further properties of the handlers *)

(** ** FSx: the describe helper and the refresh functions *)

Lemma findInPage_some id page fs :
  fsx.findInPage id page = Some fs ->
  In fs page /\ aws_StringValue (fsx.FileSystemId fs) = id.
Proof.
  unfold fsx.findInPage. intros H. apply find_some in H.
  destruct H as [Hin Heq]. split; [exact Hin|].
  apply String.eqb_eq. exact Heq.
Qed.

Lemma findInPage_none id page :
  fsx.findInPage id page = None <->
  (forall fs, In fs page -> aws_StringValue (fsx.FileSystemId fs) <> id).
Proof.
  unfold fsx.findInPage. split.
  - intros H fs Hin Heq.
    pose proof (find_none _ _ H fs Hin) as Hf. simpl in Hf.
    apply String.eqb_neq in Hf. contradiction.
  - intros H. induction page as [|x page IH]; [reflexivity|]. simpl.
    destruct (String.eqb_spec (aws_StringValue (fsx.FileSystemId x)) id)
      as [E|_].
    + exfalso. apply (H x); [left; reflexivity | exact E].
    + apply IH. intros fs Hin. apply H. right. exact Hin.
Qed.

Lemma scanPages_some id ps err fs e :
  fsx.scanPages id ps err = (Some fs, e) ->
  e = None
  /\ aws_StringValue (fsx.FileSystemId fs) = id
  /\ exists page, In page ps /\ In fs page.
Proof.
  induction ps as [|page ps IH]; simpl; [discriminate|].
  destruct (fsx.findInPage id page) as [x|] eqn:E.
  - intros H. injection H as <- <-.
    destruct (findInPage_some _ _ _ E) as [Hin Hid].
    split; [reflexivity|]. split; [exact Hid|].
    exists page. split; [left; reflexivity | exact Hin].
  - intros H. destruct (IH H) as (He & Hid & page' & Hp & Hin).
    split; [exact He|]. split; [exact Hid|].
    exists page'. split; [right; exact Hp | exact Hin].
Qed.

Lemma scanPages_none id ps err :
  fsx.scanPages id ps err = (None, err) <->
  (forall page fs, In page ps -> In fs page ->
                   aws_StringValue (fsx.FileSystemId fs) <> id).
Proof.
  induction ps as [|page ps IH]; simpl.
  - split; [intros _ page fs [] | reflexivity].
  - destruct (fsx.findInPage id page) as [x|] eqn:E.
    + split; [discriminate|]. intros H. exfalso.
      destruct (findInPage_some _ _ _ E) as [Hin Hid].
      apply (H page x); [left; reflexivity | exact Hin | exact Hid].
    + rewrite IH. split.
      * intros H p fs [<-|Hp] Hin.
        -- apply (proj1 (findInPage_none id page) E). exact Hin.
        -- apply (H p fs Hp Hin).
      * intros H p fs Hp Hin. apply (H p fs); [right; exact Hp | exact Hin].
Qed.

(** X1. A file system returned by the describe helper stands on one of the
    pages delivered, has the requested id, and comes without error. *)
Theorem X1_describe_returns_requested_id
        (conn : fsx.FSx) (id : string) (n : nat)
        (fs : fsx.FileSystem) (e : option error) :
  fsx.describeFsxFileSystem conn id n = (Some fs, e) ->
  e = None
  /\ aws_StringValue (fsx.FileSystemId fs) = id
  /\ exists page, In page (fsx.pages (conn id n)) /\ In fs page.
Proof. unfold fsx.describeFsxFileSystem. apply scanPages_some. Qed.

(** X1 at a concrete service. *)
Lemma X1_witness :
  aws_StringValue
    (fsx.FileSystemId (fsWithLifecycle "fs-0123" "CREATING")) = "fs-0123".
Proof.
  apply (X1_describe_returns_requested_id connCreating "fs-0123" 0
           (fsWithLifecycle "fs-0123" "CREATING") None).
  reflexivity.
Defined.

(** X2. The describe helper returns no file system, together with the error
    of the paging, exactly when no file system on any delivered page has the
    requested id. *)
Theorem X2_describe_nothing_iff_no_page_has_id
        (conn : fsx.FSx) (id : string) (n : nat) :
  fsx.describeFsxFileSystem conn id n = (None, fsx.pagesErr (conn id n))
  <-> (forall page fs,
          In page (fsx.pages (conn id n)) -> In fs page ->
          aws_StringValue (fsx.FileSystemId fs) <> id).
Proof. unfold fsx.describeFsxFileSystem. apply scanPages_none. Qed.

(** X3. The lifecycle refresh never reports the not-found error of the
    service: an error it returns is the error of the describe call, is not of
    the not-found code, and comes with no resource and the empty status; a
    resource it returns has the requested id and its own lifecycle as status;
    otherwise the status is empty. *)
Theorem X3_lifecycle_refresh_result
        (conn : fsx.FSx) (id : string) (n : nat)
        (res : option fsx.FileSystem) (st : string) (err : option error) :
  fsx.refreshFsxFileSystemLifecycle conn id n = (res, st, err) ->
  match err, res with
  | Some e, _ =>
      res = None /\ st = ""
      /\ snd (fsx.describeFsxFileSystem conn id n) = Some e
      /\ tfawserr.ErrMessageContains (Some e)
           fsx.ErrCodeFileSystemNotFound "" = false
  | None, Some fs =>
      aws_StringValue (fsx.FileSystemId fs) = id
      /\ st = aws_StringValue (fsx.Lifecycle fs)
  | None, None => st = ""
  end.
Proof.
  unfold fsx.refreshFsxFileSystemLifecycle.
  destruct (fsx.describeFsxFileSystem conn id n) as [filesystem derr] eqn:Hd.
  destruct (tfawserr.ErrMessageContains derr fsx.ErrCodeFileSystemNotFound "")
    eqn:Hnf.
  - intros H. injection H as <- <- <-. reflexivity.
  - destruct derr as [e|].
    + intros H. injection H as <- <- <-. simpl. auto.
    + destruct filesystem as [fs|]; intros H; injection H as <- <- <-.
      * split; [|reflexivity].
        unfold fsx.describeFsxFileSystem in Hd.
        destruct (scanPages_some _ _ _ _ _ Hd) as (_ & Hid & _). exact Hid.
      * reflexivity.
Qed.

(** X3 at a concrete service. *)
Lemma X3_witness :
  aws_StringValue
    (fsx.FileSystemId (fsWithLifecycle "fs-0123" "AVAILABLE")) = "fs-0123"
  /\ "AVAILABLE"
     = aws_StringValue (fsx.Lifecycle (fsWithLifecycle "fs-0123" "AVAILABLE")).
Proof.
  apply (X3_lifecycle_refresh_result connCreating "fs-0123" 2
           (Some (fsWithLifecycle "fs-0123" "AVAILABLE")) "AVAILABLE" None).
  reflexivity.
Defined.

Lemma findActionStatus_first action pre a post :
  (forall b, In (Some b) pre ->
             aws_StringValue (fsx.AdministrativeActionType b) <> action) ->
  aws_StringValue (fsx.AdministrativeActionType a) = action ->
  fsx.findActionStatus action (pre ++ Some a :: post)%list
  = Some (aws_StringValue (fsx.Status a)).
Proof.
  intros Hpre Ha. induction pre as [|[b|] pre IH]; simpl.
  - rewrite Ha, String.eqb_refl. reflexivity.
  - destruct (String.eqb_spec
                (aws_StringValue (fsx.AdministrativeActionType b)) action)
      as [E|_].
    + exfalso. apply (Hpre b); [left; reflexivity | exact E].
    + apply IH. intros c Hc. apply Hpre. right. exact Hc.
  - apply IH. intros c Hc. apply Hpre. right. exact Hc.
Qed.

(** X4. The administrative-action refresh reports the status of the first
    action of the requested type, skipping nil entries and actions of other
    types, whatever follows it in the list. *)
Theorem X4_refresh_reports_first_matching_action
        (conn : fsx.FSx) (id action : string) (n : nat)
        (fs : fsx.FileSystem)
        (pre post : list (option fsx.AdministrativeAction))
        (a : fsx.AdministrativeAction) :
  fsx.describeFsxFileSystem conn id n = (Some fs, None) ->
  fsx.AdministrativeActions fs = (pre ++ Some a :: post)%list ->
  (forall b, In (Some b) pre ->
             aws_StringValue (fsx.AdministrativeActionType b) <> action) ->
  aws_StringValue (fsx.AdministrativeActionType a) = action ->
  fsx.refreshFsxFileSystemAdministrativeActionsStatusFileSystemUpdate
    conn id action n
  = (Some fs, aws_StringValue (fsx.Status a), None).
Proof.
  intros Hd Hl Hpre Ha.
  unfold fsx.refreshFsxFileSystemAdministrativeActionsStatusFileSystemUpdate.
  rewrite Hd. simpl. rewrite Hl.
  rewrite (findActionStatus_first _ _ _ _ Hpre Ha). reflexivity.
Qed.

(** X4 at a concrete service. *)
Lemma X4_witness :
  fsx.refreshFsxFileSystemAdministrativeActionsStatusFileSystemUpdate
    connOtherAction "fs-0123" "STORAGE_OPTIMIZATION" 0
  = (Some {| fsx.FileSystemId := Some "fs-0123";
             fsx.Lifecycle := Some "AVAILABLE";
             fsx.FailureDetails := None;
             fsx.AdministrativeActions :=
               [None;
                Some {| fsx.AdministrativeActionType :=
                          Some "STORAGE_OPTIMIZATION";
                        fsx.Status := Some "IN_PROGRESS" |}] |},
     "IN_PROGRESS", None).
Proof.
  apply (X4_refresh_reports_first_matching_action connOtherAction "fs-0123"
           "STORAGE_OPTIMIZATION" 0 _ [None] []
           {| fsx.AdministrativeActionType := Some "STORAGE_OPTIMIZATION";
              fsx.Status := Some "IN_PROGRESS" |}).
  - reflexivity.
  - reflexivity.
  - intros b [Hb|[]]. discriminate.
  - reflexivity.
Defined.

(** ** GameLift: the routing strategy *)

Lemma nonEmpty_keeps s : s <> "" -> gamelift.nonEmpty (Some s) = Some s.
Proof. intros H. destruct s; [contradiction | reflexivity]. Qed.

Lemma nonEmpty_of_option (v : option string) :
  v <> Some "" -> gamelift.nonEmpty v = v.
Proof.
  destruct v as [s|]; [|reflexivity].
  intros H. apply nonEmpty_keeps. congruence.
Qed.

Lemma expand_flatten_strategy (rs : gamelift.RoutingStrategy) (t : string) :
  gamelift.Type_ rs = Some t ->
  gamelift.FleetId rs <> Some "" ->
  gamelift.Message rs <> Some "" ->
  gamelift.expandGameliftRoutingStrategy
    (gamelift.flattenGameliftRoutingStrategy (Some rs)) = Some rs.
Proof.
  destruct rs as [fleet message ty]. simpl. intros -> Hf Hm.
  unfold gamelift.expandGameliftRoutingStrategy,
    gamelift.flattenGameliftRoutingStrategy.
  cbn [gamelift.FleetId gamelift.Message gamelift.Type_ aws_StringValue].
  f_equal.
  destruct fleet as [f|], message as [m|];
    repeat first [ rewrite lookup_insert_eq
                 | rewrite lookup_insert_ne by discriminate
                 | rewrite lookup_empty ];
    rewrite ?nonEmpty_keeps by congruence; reflexivity.
Qed.

(** X5. Expanding the flattened form of a routing strategy gives the
    strategy back, provided it has a type and neither an empty fleet id nor
    an empty message. *)
Theorem X5_expand_after_flatten
        (rs : gamelift.RoutingStrategy) (t : string) :
  gamelift.Type_ rs = Some t ->
  gamelift.FleetId rs <> Some "" ->
  gamelift.Message rs <> Some "" ->
  gamelift.expandGameliftRoutingStrategy
    (gamelift.flattenGameliftRoutingStrategy (Some rs)) = Some rs.
Proof. apply expand_flatten_strategy. Qed.

(** X5 at a concrete strategy. *)
Lemma X5_witness :
  gamelift.expandGameliftRoutingStrategy
    (gamelift.flattenGameliftRoutingStrategy
       (Some {| gamelift.FleetId := Some "fleet-1";
                gamelift.Message := None;
                gamelift.Type_ := Some "SIMPLE" |}))
  = Some {| gamelift.FleetId := Some "fleet-1";
            gamelift.Message := None;
            gamelift.Type_ := Some "SIMPLE" |}.
Proof.
  apply (X5_expand_after_flatten _ "SIMPLE"); [reflexivity | | ]; discriminate.
Defined.

(** X6. Flattening the expanded form of a configured routing strategy block
    gives the block back, provided the block has a type, has no other keys
    than type, fleet id and message, and holds neither an empty fleet id nor
    an empty message; blocks after the first are ignored. *)
Theorem X6_flatten_after_expand
        (m : gmap string string) (others : list (gmap string string))
        (t : string) :
  m !! "type" = Some t ->
  (forall k v, m !! k = Some v ->
               k = "type" \/ k = "fleet_id" \/ k = "message") ->
  m !! "fleet_id" <> Some "" ->
  m !! "message" <> Some "" ->
  gamelift.flattenGameliftRoutingStrategy
    (gamelift.expandGameliftRoutingStrategy (m :: others)) = [m].
Proof.
  intros Ht Hkeys Hf Hm.
  unfold gamelift.expandGameliftRoutingStrategy,
    gamelift.flattenGameliftRoutingStrategy.
  cbn [gamelift.FleetId gamelift.Message gamelift.Type_].
  rewrite Ht, (nonEmpty_of_option _ Hf), (nonEmpty_of_option _ Hm).
  cbn [aws_StringValue default from_option id].
  f_equal. apply map_eq. intros i.
  destruct (decide (i = "type")) as [->|Hit].
  { rewrite lookup_insert_eq. symmetry. exact Ht. }
  rewrite lookup_insert_ne by congruence.
  destruct (decide (i = "message")) as [->|Him].
  { destruct (m !! "message") as [v|] eqn:E.
    - rewrite lookup_insert_eq. reflexivity.
    - destruct (m !! "fleet_id");
        [rewrite lookup_insert_ne by discriminate|]; apply lookup_empty. }
  destruct (decide (i = "fleet_id")) as [->|Hif].
  { destruct (m !! "message") as [v|];
      [rewrite lookup_insert_ne by discriminate|];
      (destruct (m !! "fleet_id") as [w|] eqn:E;
       [rewrite lookup_insert_eq; reflexivity | apply lookup_empty]). }
  assert (Hnone : m !! i = None).
  { destruct (m !! i) as [v|] eqn:E; [|reflexivity].
    destruct (Hkeys i v E) as [?|[?|?]]; congruence. }
  rewrite Hnone.
  destruct (m !! "message") as [v|];
    [rewrite lookup_insert_ne by congruence|];
    (destruct (m !! "fleet_id") as [w|];
     [rewrite lookup_insert_ne by congruence|]; apply lookup_empty).
Qed.

(** X6 at a concrete block. *)
Lemma X6_witness :
  gamelift.flattenGameliftRoutingStrategy
    (gamelift.expandGameliftRoutingStrategy
       [ {[ "type" := "TERMINAL"; "message" := "closed" ]} ])
  = [ {[ "type" := "TERMINAL"; "message" := "closed" ]} ].
Proof.
  apply (X6_flatten_after_expand _ [] "TERMINAL").
  - reflexivity.
  - intros k v H.
    destruct (decide (k = "type")) as [->|H1]; [left; reflexivity|].
    destruct (decide (k = "message")) as [->|H2]; [right; right; reflexivity|].
    exfalso. rewrite lookup_insert_ne in H by congruence.
    rewrite lookup_singleton_ne in H by congruence. discriminate.
  - vm_compute. discriminate.
  - vm_compute. discriminate.
Defined.

(** ** Read handlers: failure and absence *)

Ltac failing_read R :=
  unfold R; repeat case_match; simpl; intros ?;
  first [discriminate | reflexivity].

(** X7. A Read that returns an error leaves the local state exactly as it
    was, for the DAX parameter group, the SES active receipt rule set, the
    Security Hub organization configuration, the transit gateway peering
    attachment, the carrier gateway and the Service Catalog constraint.  The
    GameLift alias Read keeps the identifier when it fails, although it may
    already have stored attributes. *)
Theorem X7_failing_read_keeps_state :
  (forall flatten conn d e,
      snd (dax.resourceAwsDaxParameterGroupRead flatten conn d) = Some e ->
      fst (dax.resourceAwsDaxParameterGroupRead flatten conn d) = d)
  /\ (forall conn meta d e,
         snd (ses.resourceAwsSesActiveReceiptRuleSetRead conn meta d) = Some e ->
         fst (ses.resourceAwsSesActiveReceiptRuleSetRead conn meta d) = d)
  /\ (forall conn d e,
         snd (securityhub.resourceAwsSecurityHubOrganizationConfigurationRead
                conn d) = Some e ->
         fst (securityhub.resourceAwsSecurityHubOrganizationConfigurationRead
                conn d) = d)
  /\ (forall conn meta d e,
         snd (ec2.resourceAwsEc2TransitGatewayPeeringAttachmentRead
                conn meta d) = Some e ->
         fst (ec2.resourceAwsEc2TransitGatewayPeeringAttachmentRead
                conn meta d) = d)
  /\ (forall conn meta d e,
         snd (ec2.resourceAwsEc2CarrierGatewayRead conn meta d) = Some e ->
         fst (ec2.resourceAwsEc2CarrierGatewayRead conn meta d) = d)
  /\ (forall english conn d e,
         snd (servicecatalog.resourceAwsServiceCatalogConstraintRead
                english conn d) = Some e ->
         fst (servicecatalog.resourceAwsServiceCatalogConstraintRead
                english conn d) = d)
  /\ (forall conn meta d e,
         snd (gamelift.resourceAwsGameliftAliasRead conn meta d) = Some e ->
         schema.Id (fst (gamelift.resourceAwsGameliftAliasRead conn meta d))
         = schema.Id d).
Proof.
  split; [|split; [|split; [|split; [|split; [|split]]]]].
  - intros flatten conn d e. failing_read dax.resourceAwsDaxParameterGroupRead.
  - intros conn meta d e.
    failing_read ses.resourceAwsSesActiveReceiptRuleSetRead.
  - intros conn d e.
    failing_read
      securityhub.resourceAwsSecurityHubOrganizationConfigurationRead.
  - intros conn meta d e.
    failing_read ec2.resourceAwsEc2TransitGatewayPeeringAttachmentRead.
  - intros conn meta d e. failing_read ec2.resourceAwsEc2CarrierGatewayRead.
  - intros english conn d e.
    failing_read servicecatalog.resourceAwsServiceCatalogConstraintRead.
  - intros conn meta d e. failing_read gamelift.resourceAwsGameliftAliasRead.
Qed.

(** X7 at a concrete service: the tag listing fails after the alias was
    described; the identifier is kept, the attributes are not. *)
Lemma X7_witness :
  let o := gamelift.resourceAwsGameliftAliasRead gameliftTagsDown someClient
             (stateOf "alias-1") in
  schema.Id (fst o) = "alias-1" /\ fst o <> stateOf "alias-1".
Proof.
  split.
  - apply (proj2 (proj2 (proj2 (proj2 (proj2 (proj2
             X7_failing_read_keeps_state)))))
             gameliftTagsDown someClient (stateOf "alias-1")
             (Flatf "error listing tags for Game Lift Alias"
                (ErrorsNew "throttled"))).
    reflexivity.
  - intros H. apply (f_equal (fun d => schema.GetString d "name")) in H.
    vm_compute in H. discriminate.
Defined.

(** X8. The transit gateway peering attachment Read, run on a non-empty
    identifier, empties the identifier exactly when the describe helper fails
    with the not-found code, or succeeds with no attachment or with an
    attachment in state deleting or deleted. *)
Theorem X8_attachment_read_clears_iff
        (conn : ec2.EC2) (meta : client.AWSClient) (d : schema.ResourceData) :
  schema.Id d <> "" ->
  let answer :=
    ec2.ec2DescribeTransitGatewayPeeringAttachment conn (schema.Id d) in
  schema.Id (fst (ec2.resourceAwsEc2TransitGatewayPeeringAttachmentRead
                    conn meta d)) = ""
  <-> (tfawserr.ErrMessageContains (snd answer)
         "InvalidTransitGatewayAttachmentID.NotFound" "" = true
       \/ (snd answer = None
           /\ (fst answer = None
               \/ exists a,
                   fst answer = Some a
                   /\ (aws_StringValue (ec2.State a) = "deleting"
                       \/ aws_StringValue (ec2.State a) = "deleted")))).
Proof.
  intros Hid answer.
  unfold ec2.resourceAwsEc2TransitGatewayPeeringAttachmentRead. fold answer.
  destruct answer as [a err]. simpl.
  destruct (tfawserr.ErrMessageContains err _ "") eqn:Hnf; simpl.
  { split; [intros _; left; reflexivity | reflexivity]. }
  destruct err as [e|]; simpl.
  { split; [contradiction|]. intros [H|[H _]]; discriminate. }
  destruct a as [a|]; simpl.
  2:{ split; [intros _; right; split; [reflexivity | left; reflexivity]
             | reflexivity]. }
  unfold ec2.TransitGatewayAttachmentStateDeleting,
    ec2.TransitGatewayAttachmentStateDeleted.
  destruct (String.eqb_spec (aws_StringValue (ec2.State a)) "deleting")
    as [E1|E1]; simpl.
  { split; [|reflexivity]. intros _. right. split; [reflexivity|].
    right. exists a. split; [reflexivity | left; exact E1]. }
  destruct (String.eqb_spec (aws_StringValue (ec2.State a)) "deleted")
    as [E2|E2]; simpl.
  { split; [|reflexivity]. intros _. right. split; [reflexivity|].
    right. exists a. split; [reflexivity | right; exact E2]. }
  split; [contradiction|].
  intros [H|[_ [H|(a' & Ha & [H|H])]]]; try discriminate;
    injection Ha as <-; contradiction.
Qed.

(** X8 at a concrete service. *)
Lemma X8_witness :
  schema.Id (fst (ec2.resourceAwsEc2TransitGatewayPeeringAttachmentRead
                    ec2Deleting someClient (stateOf "tgw-attach-1"))) = "".
Proof.
  apply (X8_attachment_read_clears_iff ec2Deleting someClient
           (stateOf "tgw-attach-1")); [discriminate|].
  right. split; [reflexivity|]. right. eexists. split; [reflexivity|].
  left. reflexivity.
Defined.

(** X9. The carrier gateway Read, run on a non-empty identifier, empties the
    identifier exactly when the find helper fails with the not-found code, or
    succeeds with no gateway or with a gateway in state deleted. *)
Theorem X9_carrier_read_clears_iff
        (conn : ec2.EC2) (meta : client.AWSClient) (d : schema.ResourceData) :
  schema.Id d <> "" ->
  let answer := ec2.findCarrierGatewayByID conn (schema.Id d) in
  schema.Id (fst (ec2.resourceAwsEc2CarrierGatewayRead conn meta d)) = ""
  <-> (tfawserr.ErrCodeEquals (snd answer)
         ec2.errCodeInvalidCarrierGatewayIDNotFound = true
       \/ (snd answer = None
           /\ (fst answer = None
               \/ exists g,
                   fst answer = Some g
                   /\ aws_StringValue (ec2.cgState g) = "deleted"))).
Proof.
  intros Hid answer.
  unfold ec2.resourceAwsEc2CarrierGatewayRead. fold answer.
  destruct answer as [g err]. simpl.
  destruct (tfawserr.ErrCodeEquals err _) eqn:Hnf; simpl.
  { split; [intros _; left; reflexivity | reflexivity]. }
  destruct err as [e|]; simpl.
  { split; [contradiction|]. intros [H|[H _]]; discriminate. }
  destruct g as [g|]; simpl.
  2:{ split; [intros _; right; split; [reflexivity | left; reflexivity]
             | reflexivity]. }
  unfold ec2.CarrierGatewayStateDeleted.
  destruct (String.eqb_spec (aws_StringValue (ec2.cgState g)) "deleted")
    as [E1|E1]; simpl.
  { split; [|reflexivity]. intros _. right. split; [reflexivity|].
    right. exists g. split; [reflexivity | exact E1]. }
  split; [contradiction|].
  intros [H|[_ [H|(g' & Hg & H)]]]; try discriminate.
  injection Hg as <-. contradiction.
Qed.

(** X9 at a concrete service. *)
Lemma X9_witness :
  schema.Id (fst (ec2.resourceAwsEc2CarrierGatewayRead ec2Silent someClient
                    (stateOf "cagw-1"))) = "".
Proof.
  apply (X9_carrier_read_clears_iff ec2Silent someClient (stateOf "cagw-1"));
    [discriminate|].
  right. split; [reflexivity | left; reflexivity].
Defined.

(** X10. The DAX parameter group Read, run on a non-empty identifier,
    empties the identifier exactly when the group listing fails with the
    not-found code or is empty, or when the listing of the parameters of the
    first group fails with the not-found code. *)
Theorem X10_dax_read_clears_iff
        (flatten : list dax.DaxParameter -> list (gmap string string))
        (conn : dax.DAX) (d : schema.ResourceData) :
  schema.Id d <> "" ->
  schema.Id (fst (dax.resourceAwsDaxParameterGroupRead flatten conn d)) = ""
  <-> ((exists e,
           dax.DescribeParameterGroups conn (schema.Id d) = Fail e
           /\ tfawserr.ErrMessageContains (Some e)
                dax.ErrCodeParameterGroupNotFoundFault "" = true)
       \/ dax.DescribeParameterGroups conn (schema.Id d) = Ok []
       \/ (exists pg rest e,
              dax.DescribeParameterGroups conn (schema.Id d) = Ok (pg :: rest)
              /\ dax.DescribeParameters conn (schema.Id d) = Fail e
              /\ tfawserr.ErrMessageContains (Some e)
                   dax.ErrCodeParameterGroupNotFoundFault "" = true)).
Proof.
  intros Hid. unfold dax.resourceAwsDaxParameterGroupRead.
  destruct (dax.DescribeParameterGroups conn (schema.Id d))
    as [[|pg rest]|e] eqn:Hg.
  - simpl. split; [|reflexivity]. intros _. right. left. reflexivity.
  - destruct (dax.DescribeParameters conn (schema.Id d)) as [params|e] eqn:Hp.
    + simpl. split; [contradiction|].
      intros [(e & H & _)|[H|(pg' & rest' & e & _ & H & _)]]; discriminate.
    + destruct (tfawserr.ErrMessageContains (Some e) _ "") eqn:Hnf; simpl.
      * split; [|reflexivity]. intros _. right. right.
        exists pg, rest, e. auto.
      * split; [contradiction|].
        intros [(e' & H & _)|[H|(pg' & rest' & e' & _ & H & H')]];
          try discriminate.
        injection H as <-. simpl in Hnf. congruence.
  - destruct (tfawserr.ErrMessageContains (Some e) _ "") eqn:Hnf; simpl.
    + split; [|reflexivity]. intros _. left. exists e. auto.
    + split; [contradiction|].
      intros [(e' & H & H')|[H|(pg' & rest' & e' & H & _)]];
        try discriminate.
      injection H as <-. simpl in Hnf. congruence.
Qed.

(** X10 at a concrete service. *)
Lemma X10_witness :
  schema.Id (fst (dax.resourceAwsDaxParameterGroupRead flattenParameters
                    daxParametersGone (stateOf "group-a"))) = "".
Proof.
  apply (X10_dax_read_clears_iff flattenParameters daxParametersGone
           (stateOf "group-a")); [discriminate|].
  right. right. do 3 eexists. split; [reflexivity|]. split; reflexivity.
Defined.

(** ** Delete handlers: when they succeed *)

(** X11. The Service Catalog constraint Delete returns success exactly when
    the delete request is answered with the resource-not-found code, or is
    accepted and the deletion waiter returns either no error or an error of
    the not-found class. *)
Theorem X11_constraint_delete_succeeds_iff
        (conn : servicecatalog.ServiceCatalog) (d : schema.ResourceData) :
  let err :=
    servicecatalog.DeleteConstraint conn
      (servicecatalog.deleteConstraintInput d) in
  let waited :=
    servicecatalog.waitConstraintDeleted conn
      (schema.GetString d "accept_language") (schema.Id d) in
  snd (servicecatalog.resourceAwsServiceCatalogConstraintDelete conn d) = None
  <-> (tfawserr.ErrCodeEquals err
         servicecatalog.ErrCodeResourceNotFoundException = true
       \/ (err = None
           /\ (waited = None \/ tfresource.NotFound waited = true))).
Proof.
  intros err waited.
  unfold servicecatalog.resourceAwsServiceCatalogConstraintDelete.
  fold err. fold waited.
  destruct (tfawserr.ErrCodeEquals err _) eqn:Hnf.
  { split; [intros _; left; reflexivity | reflexivity]. }
  destruct err as [e|].
  { split; [discriminate|]. intros [H|[H _]]; discriminate. }
  destruct waited as [w|].
  2:{ split; [|reflexivity]. intros _. right. split; [reflexivity|].
      left. reflexivity. }
  destruct (tfresource.NotFound (Some w)) eqn:Hw; cbn [negb snd].
  - split; [|reflexivity]. intros _. right. split; [reflexivity|].
    right. reflexivity.
  - split; [discriminate|]. intros [H|[_ [H|H]]]; discriminate.
Qed.

(** X12. The transit gateway peering attachment Delete and the carrier
    gateway Delete return success exactly when the delete request is answered
    with the not-found code, or is accepted and the deletion waiter returns
    no error: an error of the waiter is returned whatever its class. *)
Theorem X12_ec2_delete_succeeds_iff
        (conn : ec2.EC2) (d : schema.ResourceData) :
  (snd (ec2.resourceAwsEc2TransitGatewayPeeringAttachmentDelete conn d) = None
   <-> (tfawserr.ErrMessageContains
          (ec2.DeleteTransitGatewayPeeringAttachment conn (schema.Id d))
          "InvalidTransitGatewayAttachmentID.NotFound" "" = true
        \/ (ec2.DeleteTransitGatewayPeeringAttachment conn (schema.Id d) = None
            /\ ec2.waitForEc2TransitGatewayPeeringAttachmentDeletion conn
                 (schema.Id d) = None)))
  /\ (snd (ec2.resourceAwsEc2CarrierGatewayDelete conn d) = None
      <-> (tfawserr.ErrCodeEquals
             (ec2.DeleteCarrierGateway conn (schema.Id d))
             ec2.errCodeInvalidCarrierGatewayIDNotFound = true
           \/ (ec2.DeleteCarrierGateway conn (schema.Id d) = None
               /\ ec2.waitCarrierGatewayDeleted conn (schema.Id d) = None))).
Proof.
  split.
  - unfold ec2.resourceAwsEc2TransitGatewayPeeringAttachmentDelete.
    destruct (tfawserr.ErrMessageContains _ _ "") eqn:Hnf.
    { split; [intros _; left; reflexivity | reflexivity]. }
    destruct (ec2.DeleteTransitGatewayPeeringAttachment conn (schema.Id d))
      as [e|].
    { split; [discriminate|]. intros [H|[H _]]; discriminate. }
    destruct (ec2.waitForEc2TransitGatewayPeeringAttachmentDeletion conn
                (schema.Id d)) as [w|]; simpl.
    + split; [discriminate|]. intros [H|[_ H]]; discriminate.
    + split; [|reflexivity]. intros _. right. split; reflexivity.
  - unfold ec2.resourceAwsEc2CarrierGatewayDelete.
    destruct (tfawserr.ErrCodeEquals _ _) eqn:Hnf.
    { split; [intros _; left; reflexivity | reflexivity]. }
    destruct (ec2.DeleteCarrierGateway conn (schema.Id d)) as [e|].
    { split; [discriminate|]. intros [H|[H _]]; discriminate. }
    destruct (ec2.waitCarrierGatewayDeleted conn (schema.Id d)) as [w|]; simpl.
    + split; [discriminate|]. intros [H|[_ H]]; discriminate.
    + split; [|reflexivity]. intros _. right. split; reflexivity.
Qed.

(** ** Create handlers: the identifier *)

Lemma tgw_Read_id conn meta d :
  keepsOrClearsId d
    (ec2.resourceAwsEc2TransitGatewayPeeringAttachmentRead conn meta d).
Proof.
  unfold keepsOrClearsId, ec2.resourceAwsEc2TransitGatewayPeeringAttachmentRead.
  by_cases_on_answers.
Qed.

(** X13. When the create request fails, Create returns the error and leaves
    the local state as it was.  When it succeeds, Create records the
    identifier of the created resource before anything else: a failure of
    the following wait (or, for the DAX parameter group, of the following
    update) is returned with that identifier recorded, and otherwise Create
    ends as the Read of the state with that identifier does, so with that
    identifier or, when Read finds the resource absent, with the empty one:
    transit gateway peering attachment, carrier gateway, GameLift alias and
    DAX parameter group. *)
Theorem X13_create_records_identifier :
  (forall conn meta d,
      let request :=
        ec2.CreateTransitGatewayPeeringAttachment conn
          (ec2.createTransitGatewayPeeringAttachmentInput meta d) in
      let result :=
        ec2.resourceAwsEc2TransitGatewayPeeringAttachmentCreate conn meta d in
      (forall e,
          request = Fail e ->
          result
          = (d, Some (Flatf
                        "error creating EC2 Transit Gateway Peering Attachment"
                        e)))
      /\ (forall out,
             request = Ok out ->
             let created :=
               schema.SetId d
                 (aws_StringValue (ec2.TransitGatewayAttachmentId out)) in
             (forall e,
                 ec2.waitForEc2TransitGatewayPeeringAttachmentCreation conn
                   (schema.Id created) = Some e ->
                 result
                 = (created,
                    Some (Flatf
                            "error waiting for EC2 Transit Gateway Peering Attachment availability"
                            e)))
             /\ (ec2.waitForEc2TransitGatewayPeeringAttachmentCreation conn
                   (schema.Id created) = None ->
                 result
                 = ec2.resourceAwsEc2TransitGatewayPeeringAttachmentRead
                     conn meta created
                 /\ keepsOrClearsId created result)))
  /\ (forall conn meta d,
         let request :=
           ec2.CreateCarrierGateway conn
             (client.MergeDefaultTags meta (schema.GetMap d "tags"))
             (Some (schema.GetString d "vpc_id")) in
         let result := ec2.resourceAwsEc2CarrierGatewayCreate conn meta d in
         (forall e,
             request = Fail e ->
             result
             = (d, Some (Wrapf "error creating EC2 Carrier Gateway" e)))
         /\ (forall out,
                request = Ok out ->
                let created :=
                  schema.SetId d
                    (aws_StringValue (ec2.CarrierGatewayId out)) in
                (forall e,
                    ec2.waitCarrierGatewayAvailable conn (schema.Id created)
                    = Some e ->
                    result
                    = (created,
                       Some (Wrapf
                               "error waiting for EC2 Carrier Gateway to become available"
                               e)))
                /\ (ec2.waitCarrierGatewayAvailable conn (schema.Id created)
                    = None ->
                    result
                    = ec2.resourceAwsEc2CarrierGatewayRead conn meta created
                    /\ keepsOrClearsId created result)))
  /\ (forall conn meta d,
         let request :=
           gamelift.CreateAlias conn (gamelift.createAliasInput meta d) in
         let result := gamelift.resourceAwsGameliftAliasCreate conn meta d in
         (forall e, request = Fail e -> result = (d, Some e))
         /\ (forall out,
                request = Ok out ->
                let created :=
                  schema.SetId d (aws_StringValue (gamelift.AliasId out)) in
                result = gamelift.resourceAwsGameliftAliasRead conn meta created
                /\ keepsOrClearsId created result))
  /\ (forall flatten expand conn d,
         let request :=
           dax.CreateParameterGroup conn (dax.createParameterGroupInput d) in
         let result :=
           dax.resourceAwsDaxParameterGroupCreate flatten expand conn d in
         let created := schema.SetId d (schema.GetString d "name") in
         (forall e, request = Some e -> result = (d, Some e))
         /\ (forall e,
                request = None ->
                schema.GetList d "parameters" <> [] ->
                dax.UpdateParameterGroup conn
                  (dax.updateParameterGroupInput expand created) = Some e ->
                result = (created, Some e))
         /\ (request = None ->
             schema.GetList d "parameters" = []
             \/ dax.UpdateParameterGroup conn
                  (dax.updateParameterGroupInput expand created) = None ->
             result = dax.resourceAwsDaxParameterGroupRead flatten conn created
             /\ keepsOrClearsId created result)).
Proof.
  split; [|split; [|split]].
  - intros conn meta d request result. subst request result.
    unfold ec2.resourceAwsEc2TransitGatewayPeeringAttachmentCreate.
    split.
    + intros e H. cbv zeta. rewrite H. reflexivity.
    + intros out H. cbv zeta. rewrite H. split.
      * intros e Hw. rewrite Hw. reflexivity.
      * intros Hw. rewrite Hw. split; [reflexivity|]. apply tgw_Read_id.
  - intros conn meta d request result. subst request result.
    unfold ec2.resourceAwsEc2CarrierGatewayCreate.
    split.
    + intros e H. cbv zeta. rewrite H. reflexivity.
    + intros out H. cbv zeta. rewrite H. split.
      * intros e Hw. rewrite Hw. reflexivity.
      * intros Hw. rewrite Hw. split; [reflexivity|]. apply carrier_Read_id.
  - intros conn meta d request result. subst request result.
    unfold gamelift.resourceAwsGameliftAliasCreate.
    split.
    + intros e H. cbv zeta. rewrite H. reflexivity.
    + intros out H. cbv zeta. rewrite H.
      split; [reflexivity|]. apply gamelift_Read_id.
  - intros flatten expand conn d request result created.
    subst request result.
    unfold dax.resourceAwsDaxParameterGroupCreate. fold created.
    change (schema.GetList created "parameters")
      with (schema.GetList d "parameters").
    split; [|split].
    + intros e H. rewrite H. reflexivity.
    + intros e H Hne Hu. rewrite H.
      destruct (schema.GetList d "parameters") as [|p l]; [congruence|].
      simpl. unfold dax.resourceAwsDaxParameterGroupUpdate.
      rewrite Hu. reflexivity.
    + intros H Hor. rewrite H.
      destruct (schema.GetList d "parameters") as [|p l] eqn:El; simpl.
      * split; [reflexivity|]. apply dax_Read_id.
      * destruct Hor as [Hor|Hu]; [discriminate|].
        unfold dax.resourceAwsDaxParameterGroupUpdate. rewrite Hu.
        split; [reflexivity|]. apply dax_Read_id.
Qed.

(** X13 at a concrete service: the attachment is created and the wait for
    its availability fails. *)
Lemma X13_witness :
  ec2.resourceAwsEc2TransitGatewayPeeringAttachmentCreate ec2CreatedNotReady
    someClient (stateOf "")
  = (schema.SetId (stateOf "") "tgw-attach-9",
     Some (Flatf
             "error waiting for EC2 Transit Gateway Peering Attachment availability"
             (ErrorsNew "unexpected state failed"))).
Proof.
  apply (proj1 (proj2 (proj1 X13_create_records_identifier
                         ec2CreatedNotReady someClient (stateOf ""))
                  createdAttachment eq_refl)
           (ErrorsNew "unexpected state failed") eq_refl).
Defined.

(** X11 at a concrete service: the waiter reports the constraint not found
    after the delete request was accepted. *)
Lemma X11_witness :
  snd (servicecatalog.resourceAwsServiceCatalogConstraintDelete
         catalogGoneWhileWaiting (stateOf "cons-abc")) = None.
Proof.
  apply (X11_constraint_delete_succeeds_iff catalogGoneWhileWaiting
           (stateOf "cons-abc")).
  right. split; [reflexivity|]. right. reflexivity.
Defined.

(** X12 at a concrete service: the same answer of the waiter makes the
    attachment Delete fail. *)
Lemma X12_witness :
  exists e,
    snd (ec2.resourceAwsEc2TransitGatewayPeeringAttachmentDelete ec2Deleting
           (stateOf "tgw-attach-1")) = Some e.
Proof.
  destruct (snd (ec2.resourceAwsEc2TransitGatewayPeeringAttachmentDelete
                   ec2Deleting (stateOf "tgw-attach-1"))) as [e|] eqn:E.
  - exists e. reflexivity.
  - exfalso.
    apply (proj1 (X12_ec2_delete_succeeds_iff ec2Deleting
                    (stateOf "tgw-attach-1"))) in E.
    destruct E as [H|[_ H]]; discriminate.
Defined.

(** ** Read handlers: what is stored *)

(** X14. When the waiter returns a constraint with its detail, the Service
    Catalog constraint Read succeeds, keeps the identifier, stores the
    parameters, the status, the description, the owner, the portfolio, the
    product and the type as the service reports them, and keeps the
    configured accept language, storing the English code when none is
    configured. *)
Theorem X14_constraint_read_stores_remote
        (english : string) (conn : servicecatalog.ServiceCatalog)
        (d : schema.ResourceData)
        (output : servicecatalog.DescribeConstraintOutput)
        (detail : servicecatalog.ConstraintDetail) :
  servicecatalog.waitConstraintReady conn
    (schema.GetString d "accept_language") (schema.Id d)
  = (Some output, None) ->
  servicecatalog.dcConstraintDetail output = Some detail ->
  let o := servicecatalog.resourceAwsServiceCatalogConstraintRead english
             conn d in
  snd o = None
  /\ schema.Id (fst o) = schema.Id d
  /\ schema.GetString (fst o) "accept_language"
     = (if String.eqb (schema.GetString d "accept_language") ""
        then english else schema.GetString d "accept_language")
  /\ schema.GetString (fst o) "parameters"
     = aws_StringValue (servicecatalog.ConstraintParameters output)
  /\ schema.GetString (fst o) "status"
     = aws_StringValue (servicecatalog.Status output)
  /\ schema.GetString (fst o) "description"
     = aws_StringValue (servicecatalog.Description detail)
  /\ schema.GetString (fst o) "owner"
     = aws_StringValue (servicecatalog.Owner detail)
  /\ schema.GetString (fst o) "portfolio_id"
     = aws_StringValue (servicecatalog.PortfolioId detail)
  /\ schema.GetString (fst o) "product_id"
     = aws_StringValue (servicecatalog.ProductId detail)
  /\ schema.GetString (fst o) "type"
     = aws_StringValue (servicecatalog.Type_ detail).
Proof.
  intros Hw Hd o. subst o.
  unfold servicecatalog.resourceAwsServiceCatalogConstraintRead.
  rewrite Hw, Hd. rewrite andb_false_r. cbn [fst snd].
  generalize (if String.eqb (schema.GetString d "accept_language") ""
              then english else schema.GetString d "accept_language").
  intros al.
  split; [reflexivity|]. split; [reflexivity|].
  repeat split; lookup_attr;
    match goal with
    | |- context [VString <$> ?v] => destruct v; reflexivity
    | _ => reflexivity
    end.
Qed.

(** X14 at a concrete service. *)
Lemma X14_witness :
  let o := servicecatalog.resourceAwsServiceCatalogConstraintRead "en"
             catalogReady (stateOf "cons-abc") in
  schema.GetString (fst o) "accept_language" = "en"
  /\ schema.GetString (fst o) "owner" = "123456789012".
Proof.
  destruct (X14_constraint_read_stores_remote "en" catalogReady
              (stateOf "cons-abc") readyOutput readyDetail eq_refl eq_refl)
    as (_ & _ & Hal & _ & _ & _ & Ho & _).
  split; [exact Hal | exact Ho].
Defined.

(** X15. After a successful GameLift alias Read, expanding the stored
    routing strategy gives the routing strategy the service reported,
    provided that strategy has a type and neither an empty fleet id nor an
    empty message: an Update that follows sends the strategy unchanged. *)
Theorem X15_alias_read_then_expand
        (conn : gamelift.GameLift) (meta : client.AWSClient)
        (d : schema.ResourceData) (a : gamelift.Alias)
        (rs : gamelift.RoutingStrategy) (t : string)
        (tags : gmap string string) :
  gamelift.DescribeAlias conn (schema.Id d) = Ok a ->
  gamelift.GameliftListTags conn (aws_StringValue (gamelift.AliasArn a))
  = Ok tags ->
  gamelift.aliasRoutingStrategy a = Some rs ->
  gamelift.Type_ rs = Some t ->
  gamelift.FleetId rs <> Some "" ->
  gamelift.Message rs <> Some "" ->
  let o := gamelift.resourceAwsGameliftAliasRead conn meta d in
  snd o = None
  /\ gamelift.expandGameliftRoutingStrategy
       (schema.GetList (fst o) "routing_strategy") = Some rs.
Proof.
  intros Ha Htags Hrs Ht Hf Hm o. subst o.
  unfold gamelift.resourceAwsGameliftAliasRead.
  rewrite Ha, Htags, Hrs. cbn [fst snd].
  split; [reflexivity|].
  unfold ec2.setTags. lookup_attr.
  apply (expand_flatten_strategy rs t Ht Hf Hm).
Qed.

(** X15 at a concrete service. *)
Lemma X15_witness :
  gamelift.expandGameliftRoutingStrategy
    (schema.GetList
       (fst (gamelift.resourceAwsGameliftAliasRead gameliftUp someClient
               (stateOf "alias-1"))) "routing_strategy")
  = Some {| gamelift.FleetId := Some "fleet-1";
            gamelift.Message := None;
            gamelift.Type_ := Some "SIMPLE" |}.
Proof.
  apply (X15_alias_read_then_expand gameliftUp someClient (stateOf "alias-1")
           {| gamelift.AliasArn := Some "arn:aws:gamelift:::alias/alias-1";
              gamelift.AliasId := Some "alias-1";
              gamelift.Description := None;
              gamelift.Name := Some "live";
              gamelift.aliasRoutingStrategy :=
                Some {| gamelift.FleetId := Some "fleet-1";
                        gamelift.Message := None;
                        gamelift.Type_ := Some "SIMPLE" |} |}
           _ "SIMPLE" ∅);
    first [reflexivity | discriminate].
Defined.

(** X19. A successful SES active receipt rule set Update (which is also its
    Create) sets the identifier to the configured rule set name and builds
    the ARN from it, while the stored rule set name is the one the service
    reports as active. *)
Theorem X19_active_rule_set_update_stores
        (conn : ses.SES) (meta : client.AWSClient) (d : schema.ResourceData)
        (metadata : ses.ReceiptRuleSetMetadata) (active : string) :
  ses.SetActiveReceiptRuleSet conn (Some (schema.GetString d "rule_set_name"))
  = None ->
  ses.DescribeActiveReceiptRuleSet conn
  = Ok {| ses.Metadata := Some metadata |} ->
  ses.Name metadata = Some active ->
  let o := ses.resourceAwsSesActiveReceiptRuleSetUpdate conn meta d in
  snd o = None
  /\ schema.Id (fst o) = schema.GetString d "rule_set_name"
  /\ schema.GetString (fst o) "rule_set_name" = active
  /\ schema.GetString (fst o) "arn"
     = arn_String (client.Partition meta) "ses" (client.Region meta)
         (client.AccountID meta)
         ("receipt-rule-set/" ++ schema.GetString d "rule_set_name").
Proof.
  intros Hset Hdesc Hname o. subst o.
  unfold ses.resourceAwsSesActiveReceiptRuleSetUpdate,
    ses.resourceAwsSesActiveReceiptRuleSetRead.
  rewrite Hset, Hdesc. cbn [ses.Metadata fst snd]. rewrite Hname.
  generalize (schema.GetString d "rule_set_name"). intros name.
  split; [reflexivity|]. split; [reflexivity|].
  split; lookup_attr; reflexivity.
Qed.

(** X19 at a concrete service: the configured and the reported name
    differ. *)
Lemma X19_witness :
  let o := ses.resourceAwsSesActiveReceiptRuleSetUpdate sesSwitched someClient
             (stateOfRuleSet "rules-c") in
  schema.Id (fst o) = "rules-c"
  /\ schema.GetString (fst o) "rule_set_name" = "rules-b".
Proof.
  destruct (X19_active_rule_set_update_stores sesSwitched someClient
              (stateOfRuleSet "rules-c") {| ses.Name := Some "rules-b" |}
              "rules-b" eq_refl eq_refl eq_refl) as (_ & Hid & Hn & _).
  split; [exact Hid | exact Hn].
Defined.

(** ** Route 53 Resolver rule data source *)

(** X16. The listing request of the data source carries a filter exactly for
    each of the four attributes (domain name, name, resolver endpoint id,
    rule type) whose configured value is not empty, with that value; a filter
    with an empty value is never sent. *)
Theorem X16_filters_are_the_non_empty_attributes
        (d : schema.ResourceData) (k v : string) :
  route53resolver.ruleFilters d !! k = Some v
  <-> (v <> ""
       /\ ((k = "DOMAIN_NAME" /\ v = schema.GetString d "domain_name")
           \/ (k = "NAME" /\ v = schema.GetString d "name")
           \/ (k = "RESOLVER_ENDPOINT_ID"
               /\ v = schema.GetString d "resolver_endpoint_id")
           \/ (k = "TYPE" /\ v = schema.GetString d "rule_type"))).
Proof.
  unfold route53resolver.ruleFilters,
    route53resolver.buildRoute53ResolverAttributeFilterList.
  rewrite map_lookup_filter_Some. cbn [list_to_map foldr fst snd uncurry].
  generalize (schema.GetString d "domain_name") (schema.GetString d "name")
    (schema.GetString d "resolver_endpoint_id")
    (schema.GetString d "rule_type").
  intros v1 v2 v3 v4. simpl.
  destruct (decide (k = "DOMAIN_NAME")) as [->|H1].
  { rewrite lookup_insert_eq. split.
    - intros [H Hv]. injection H as <-. split; [exact Hv|]. left. auto.
    - intros [Hv [[_ ->]|[[H _]|[[H _]|[H _]]]]]; try discriminate.
      split; [reflexivity | exact Hv]. }
  rewrite lookup_insert_ne by congruence.
  destruct (decide (k = "NAME")) as [->|H2].
  { rewrite lookup_insert_eq. split.
    - intros [H Hv]. injection H as <-. split; [exact Hv|]. right. left. auto.
    - intros [Hv [[H _]|[[_ ->]|[[H _]|[H _]]]]]; try discriminate.
      split; [reflexivity | exact Hv]. }
  rewrite lookup_insert_ne by congruence.
  destruct (decide (k = "RESOLVER_ENDPOINT_ID")) as [->|H3].
  { rewrite lookup_insert_eq. split.
    - intros [H Hv]. injection H as <-. split; [exact Hv|].
      right. right. left. auto.
    - intros [Hv [[H _]|[[H _]|[[_ ->]|[H _]]]]]; try discriminate.
      split; [reflexivity | exact Hv]. }
  rewrite lookup_insert_ne by congruence.
  destruct (decide (k = "TYPE")) as [->|H4].
  { rewrite lookup_insert_eq. split.
    - intros [H Hv]. injection H as <-. split; [exact Hv|].
      right. right. right. auto.
    - intros [Hv [[H _]|[[H _]|[[H _]|[_ ->]]]]]; try discriminate.
      split; [reflexivity | exact Hv]. }
  rewrite lookup_insert_ne by congruence. rewrite lookup_empty.
  split; [intros [H _]; discriminate|].
  intros [_ [[H _]|[[H _]|[[H _]|[H _]]]]]; contradiction.
Qed.

(** X17. When no rule id is configured, the lookup of the data source never
    panics, and it finds a rule exactly when the listing ends without error
    and its pages hold this one rule and no other; with no rule or with
    several rules it fails. *)
Theorem X17_filter_lookup_finds_the_single_rule
        (deleted : string) (conn : route53resolver.Route53Resolver)
        (d : schema.ResourceData) :
  schema.GetOkString d "resolver_rule_id" = None ->
  route53resolver.lookupRule deleted conn d <> None
  /\ (forall rule,
         route53resolver.lookupRule deleted conn d = Some (Ok rule)
         <-> (snd (route53resolver.ListResolverRulesPages conn
                     (route53resolver.ruleFilters d)) = None
              /\ List.concat
                   (fst (route53resolver.ListResolverRulesPages conn
                           (route53resolver.ruleFilters d))) = [rule])).
Proof.
  intros Hid. unfold route53resolver.lookupRule. rewrite Hid.
  destruct (route53resolver.ListResolverRulesPages conn
              (route53resolver.ruleFilters d)) as [pages err].
  cbn [fst snd].
  destruct err as [e|].
  { split; [discriminate|]. intros rule.
    split; [discriminate | intros [H _]; discriminate]. }
  destruct (List.concat pages) as [|r [|r' rest]].
  - split; [discriminate|]. intros rule.
    split; [discriminate | intros [_ H]; discriminate].
  - split; [discriminate|]. intros rule. split.
    + intros H. injection H as <-. split; reflexivity.
    + intros [_ H]. injection H as <-. reflexivity.
  - split; [discriminate|]. intros rule.
    split; [discriminate | intros [_ H]; discriminate].
Qed.

(** X17 at a concrete service: two pages with one rule each give an
    error. *)
Lemma X17_witness :
  exists e,
    route53resolver.lookupRule "DELETED" resolverTwoRules (stateOf "")
    = Some (Fail e).
Proof.
  destruct (X17_filter_lookup_finds_the_single_rule "DELETED"
              resolverTwoRules (stateOf "") eq_refl) as [Hsome Hiff].
  destruct (route53resolver.lookupRule "DELETED" resolverTwoRules
              (stateOf "")) as [[rule|e]|].
  - exfalso. destruct (proj1 (Hiff rule) eq_refl) as [_ H]. discriminate.
  - exists e. reflexivity.
  - exfalso. apply Hsome. reflexivity.
Defined.

(** X18. For a rule shared with the account the data source does not list
    tags: it succeeds with the identifier of the rule and leaves the stored
    tags as they were, whatever the tag listing would answer. *)
Theorem X18_shared_rule_keeps_tags
        (deleted : string) (trim : string -> string)
        (conn : route53resolver.Route53Resolver) (meta : client.AWSClient)
        (d : schema.ResourceData) (rule : route53resolver.ResolverRule) :
  route53resolver.lookupRule deleted conn d = Some (Ok rule) ->
  route53resolver.ShareStatus rule
  = Some route53resolver.ShareStatusSharedWithMe ->
  exists d',
    route53resolver.dataSourceAwsRoute53ResolverRuleRead deleted trim conn
      meta d = Some (d', None)
    /\ schema.Id d' = aws_StringValue (route53resolver.Id rule)
    /\ schema.attrs d' !! "tags" = schema.attrs d !! "tags"
    /\ schema.GetString d' "share_status"
       = route53resolver.ShareStatusSharedWithMe.
Proof.
  intros Hl Hs.
  unfold route53resolver.dataSourceAwsRoute53ResolverRuleRead.
  rewrite Hl, Hs. cbn [aws_StringValue]. rewrite String.eqb_refl.
  cbn [negb]. eexists. split; [reflexivity|].
  split; [reflexivity|].
  split; lookup_attr; reflexivity.
Qed.

(** X18 at a concrete service whose tag listing fails. *)
Lemma X18_witness :
  exists d',
    route53resolver.dataSourceAwsRoute53ResolverRuleRead "DELETED"
      (fun s => s) resolverShared someClient (stateOf "") = Some (d', None)
    /\ schema.Id d' = "rslvr-rr-1".
Proof.
  destruct (X18_shared_rule_keeps_tags "DELETED" (fun s => s) resolverShared
              someClient (stateOf "") sharedRule eq_refl eq_refl)
    as (d' & Hr & Hid & _).
  exists d'. split; [exact Hr | exact Hid].
Defined.

(** ** Security Hub organization configuration *)

(** X20. A successful Security Hub organization configuration Update (which
    is also its Create) stores the auto-enable setting the service reports,
    not the one it sent, and sets the identifier to the account id of the
    client. *)
Theorem X20_organization_configuration_update_stores
        (conn : securityhub.SecurityHub) (meta : client.AWSClient)
        (d : schema.ResourceData) (reported : bool) :
  securityhub.UpdateOrganizationConfiguration conn
    (schema.GetBool d "auto_enable") = None ->
  securityhub.DescribeOrganizationConfiguration conn
  = Ok {| securityhub.AutoEnable := Some reported |} ->
  let o := securityhub.resourceAwsSecurityHubOrganizationConfigurationUpdate
             conn meta d in
  snd o = None
  /\ schema.Id (fst o) = client.AccountID meta
  /\ schema.GetBool (fst o) "auto_enable" = reported.
Proof.
  intros Hu Hd o. subst o.
  unfold securityhub.resourceAwsSecurityHubOrganizationConfigurationUpdate,
    securityhub.resourceAwsSecurityHubOrganizationConfigurationRead.
  rewrite Hu, Hd. cbn [fst snd securityhub.AutoEnable].
  split; [reflexivity|]. split; [reflexivity|].
  unfold schema.GetBool, schema.SetBool. rewrite lookup_Set_.
  rewrite decide_True by reflexivity. reflexivity.
Qed.

(** X20 at a concrete service that reports the setting switched off. *)
Lemma X20_witness :
  schema.GetBool
    (fst (securityhub.resourceAwsSecurityHubOrganizationConfigurationUpdate
            hubKeepsOff someClient wantsAutoEnable)) "auto_enable" = false.
Proof.
  apply (X20_organization_configuration_update_stores hubKeepsOff someClient
           wantsAutoEnable false); reflexivity.
Defined.
